(** * Budget sync: the deduplication-and-merge engine of [script.py]

    A shallow embedding of the duplicate detector ([row_exists]), the
    ledger merger ([merge_and_sort_data]), the noise filter
    ([filter_condition]) and the two write-back blocks of [script.py],
    followed by the properties proved about them.

    Conventions of the model.
    - Python [str] is [string]; the character operations ([strip],
      [lower], [replace]) are modelled on the ASCII range, bytes above
      127 are left alone.
    - Python [float] is the primitive binary64 [float]; arithmetic and
      comparisons are the IEEE ones the interpreter performs.
    - [float(s)] and [datetime.strptime(s, DATE_FORMAT)] are library
      calls; the engine takes them as parameters returning [None] where
      the call raises [ValueError].  Concrete instances for plain decimal
      numerals and for the format [%Y-%m-%d] are given for the examples.
    - Logging and worksheet calls are effects on an explicit [world]. *)

From Stdlib Require Import Floats Uint63 ZArith NArith String Ascii List Bool Arith Lia.
From Stdlib Require Import Sorted Permutation.
Import ListNotations.
Local Open Scope string_scope.
Local Open Scope list_scope.

(** ** Text operations *)

Module Text.

(** [str.isspace] on the ASCII range: TAB..CR, FS..US and SPACE. *)
Definition isspace (c : ascii) : bool :=
  let n := nat_of_ascii c in
  (n =? 32)%nat || ((9 <=? n)%nat && (n <=? 13)%nat)
  || ((28 <=? n)%nat && (n <=? 31)%nat).

Fixpoint lstrip (s : string) : string :=
  match s with
  | EmptyString => EmptyString
  | String c s' => if isspace c then lstrip s' else s
  end.

Fixpoint rstrip (s : string) : string :=
  match s with
  | EmptyString => EmptyString
  | String c s' =>
      match rstrip s' with
      | EmptyString => if isspace c then EmptyString else String c EmptyString
      | r => String c r
      end
  end.

(** [s.strip()] *)
Definition strip (s : string) : string := lstrip (rstrip s).

Definition lower_char (c : ascii) : ascii :=
  let n := nat_of_ascii c in
  if (65 <=? n)%nat && (n <=? 90)%nat then ascii_of_nat (n + 32) else c.

(** [s.lower()] *)
Fixpoint lower (s : string) : string :=
  match s with
  | EmptyString => EmptyString
  | String c s' => String (lower_char c) (lower s')
  end.

(** [s.replace(c, '')] for a one-character [c]. *)
Fixpoint remove_char (c : ascii) (s : string) : string :=
  match s with
  | EmptyString => EmptyString
  | String d s' =>
      if Ascii.eqb d c then remove_char c s' else String d (remove_char c s')
  end.

(** Truth value of a string: non-empty. *)
Definition truthy (s : string) : bool :=
  match s with EmptyString => false | String _ _ => true end.

Fixpoint is_prefix (p s : string) : bool :=
  match p, s with
  | EmptyString, _ => true
  | String a p', String b s' => Ascii.eqb a b && is_prefix p' s'
  | String _ _, EmptyString => false
  end.

(** [p in s] *)
Fixpoint is_substring (p s : string) : bool :=
  is_prefix p s
  || match s with
     | EmptyString => false
     | String _ s' => is_substring p s'
     end.

End Text.

Import Text.

(** ** Numbers *)

Module Num.

(** The literal [0.01], i.e. the binary64 value nearest to one hundredth. *)
Definition cent : float := 0x1.47ae147ae147bp-7%float.

(** [abs(a - b) <= 0.01] *)
Definition within_cent (a b : float) : bool :=
  PrimFloat.leb (PrimFloat.abs (PrimFloat.sub a b)) cent.

(** [pd.notna(x) and x > 0] *)
Definition notna_positive (x : float) : bool :=
  negb (PrimFloat.is_nan x) && PrimFloat.ltb 0%float x.

Definition digit_of (c : ascii) : option Z :=
  let n := nat_of_ascii c in
  if (48 <=? n)%nat && (n <=? 57)%nat then Some (Z.of_nat (n - 48)) else None.

(** Reads a run of decimal digits: the value, the number of digits read
    and the rest of the text. *)
Fixpoint digits (acc : Z) (count : nat) (s : string) : Z * nat * string :=
  match s with
  | EmptyString => (acc, count, s)
  | String c s' =>
      match digit_of c with
      | Some d => digits (10 * acc + d) (S count) s'
      | None => (acc, count, s)
      end
  end.

Definition float_of_Z (z : Z) : float := PrimFloat.of_uint63 (Uint63.of_Z z).

(** [float(s)] on plain decimal numerals [[-]ddd[.ddd]] of at most 15
    digits: numerator and power of ten are exact in binary64, so their
    correctly rounded quotient is the value [float] returns.  Text that is
    not such a numeral gives [None]; the examples use this instance only on
    numerals of this form and on text [float] rejects with [ValueError]. *)
Definition float_decimal (s : string) : option float :=
  let '(neg, body) :=
    match s with
    | String "-" s' => (true, s')
    | _ => (false, s)
    end in
  let '(ip, n1, rest) := digits 0 0 body in
  let '(m, n2, rest') :=
    match rest with
    | String "." r => digits ip 0 r
    | _ => (ip, 0%nat, rest)
    end in
  match rest' with
  | EmptyString =>
      if ((1 <=? n1 + n2)%nat && (n1 + n2 <=? 15)%nat)%bool then
        let q := PrimFloat.div (float_of_Z m) (float_of_Z (10 ^ Z.of_nat n2)) in
        Some (if neg then PrimFloat.opp q else q)
      else None
  | _ => None
  end.

End Num.

Import Num.

(** ** Data model *)

(** A worksheet cell handed to [update]: text, or a number for the amount
    of a freshly queued row. *)
Inductive cell : Type :=
| CStr (s : string)
| CNum (x : float).

(** A row of the combined CSV frame [full_df]: the formatted date, the
    name, and the two numeric columns, [nan] where the CSV has no value. *)
Record csv_record : Type := mk_csv {
  csv_date : string;
  csv_name : string;
  csv_cost : float;
  csv_payment : float
}.

(** ** Duplicate detector *)

Section Detector.

(** [float(s)]: [None] stands for [ValueError]. *)
Variable py_float : string -> option float.

(** [s.strip().lower()] *)
Definition normalize (s : string) : string := lower (strip s).

(** [str(cell).replace('$', '').replace(',', '').strip()] *)
Definition money_text (s : string) : string :=
  strip (remove_char "," (remove_char "$" s)).

(** The amount a CSV record carries: its cost when present and positive,
    else its payment when present and positive.  The frame has both
    columns (the script indexes them before this point), so the [hasattr]
    tests hold. *)
Definition csv_amount (r : csv_record) : option float :=
  if notna_positive (csv_cost r) then Some (csv_cost r)
  else if notna_positive (csv_payment r) then Some (csv_payment r)
  else None.

(** First loop of [row_exists]: the rows read from the worksheet. *)
Fixpoint sheet_scan (name_str_clean : string) (amount_val : float)
    (sheet_data : list (list string)) : bool :=
  match sheet_data with
  | [] => false
  | row :: rest =>
      if (3 <=? length row)%nat then
        let existing_name :=
          if truthy (nth 1 row "") then lower (strip (nth 1 row "")) else "" in
        if negb (String.eqb existing_name name_str_clean) then
          sheet_scan name_str_clean amount_val rest
        else
          match py_float (money_text (nth 2 row "")) with
          | None => sheet_scan name_str_clean amount_val rest
          | Some existing_amount =>
              if within_cent existing_amount amount_val then true
              else sheet_scan name_str_clean amount_val rest
          end
      else sheet_scan name_str_clean amount_val rest
  end.

(** Second loop of [row_exists]: the rows of the CSV frame. *)
Fixpoint csv_scan (date_str name_str_clean : string) (amount_val : float)
    (csv_data : list csv_record) : bool :=
  match csv_data with
  | [] => false
  | csv_row :: rest =>
      let csv_name := lower (strip (csv_name csv_row)) in
      if negb (String.eqb csv_name name_str_clean) then
        csv_scan date_str name_str_clean amount_val rest
      else
        match csv_amount csv_row with
        | None => csv_scan date_str name_str_clean amount_val rest
        | Some amount =>
            if within_cent amount amount_val
               && negb (String.eqb (csv_date csv_row) date_str)
            then true
            else csv_scan date_str name_str_clean amount_val rest
        end
  end.

Definition row_exists (date_str name_str : string) (amount_val : float)
    (sheet_data : list (list string)) (csv_data : list csv_record) : bool :=
  let name_str_clean := lower (strip name_str) in
  if sheet_scan name_str_clean amount_val sheet_data then true
  else csv_scan date_str name_str_clean amount_val csv_data.

End Detector.


(** ** Dates *)

Module Calendar.

(** A naive [datetime], counted in microseconds from [datetime.min]
    (0001-01-01 00:00:00). *)
Definition datetime : Type := N.

Definition datetime_min : datetime := 0%N.

Definition is_leap (y : N) : bool :=
  ((y mod 4 =? 0) && (negb (y mod 100 =? 0) || (y mod 400 =? 0)))%N.

Definition days_in_month (y m : N) : N :=
  if (m =? 2)%N then (if is_leap y then 29 else 28)%N
  else if ((m =? 4) || (m =? 6) || (m =? 9) || (m =? 11))%N then 30%N
  else 31%N.

Definition days_before_year (y : N) : N :=
  let p := (y - 1)%N in (p * 365 + p / 4 - p / 100 + p / 400)%N.

Fixpoint days_before_month (y : N) (m : nat) : N :=
  match m with
  | O => 0%N
  | S m' => (days_before_month y m' + days_in_month y (N.of_nat m))%N
  end.

(** Midnight of a calendar day; [None] where the [datetime] constructor
    raises [ValueError]. *)
Definition make_date (y m d : N) : option datetime :=
  if ((1 <=? y) && (y <=? 9999) && (1 <=? m) && (m <=? 12)
      && (1 <=? d) && (d <=? days_in_month y m))%N
  then Some ((days_before_year y + days_before_month y (N.to_nat m - 1)
              + (d - 1)) * 86400000000)%N
  else None.

Definition digit (c : ascii) : option N :=
  option_map Z.to_N (digit_of c).

Definition in_range (lo hi : N) (c : ascii) : bool :=
  match digit c with
  | Some n => ((lo <=? n) && (n <=? hi))%N
  | None => false
  end.

Definition digit_val (c : ascii) : N :=
  match digit c with Some n => n | None => 0%N end.

(** Directive [%Y]: exactly four digits. *)
Definition read_year (s : string) : option (N * string) :=
  match s with
  | String a (String b (String c (String d rest))) =>
      if in_range 0 9 a && in_range 0 9 b && in_range 0 9 c && in_range 0 9 d
      then Some ((digit_val a * 1000 + digit_val b * 100
                  + digit_val c * 10 + digit_val d)%N, rest)
      else None
  | _ => None
  end.

(** Directive [%m]: the alternatives [1[0-2]], [0[1-9]], [[1-9]] in order. *)
Definition read_month (s : string) : option (N * string) :=
  match s with
  | String a rest =>
      match rest with
      | String b rest' =>
          if Ascii.eqb a "1" && in_range 0 2 b then Some ((10 + digit_val b)%N, rest')
          else if Ascii.eqb a "0" && in_range 1 9 b then Some (digit_val b, rest')
          else if in_range 1 9 a then Some (digit_val a, rest)
          else None
      | EmptyString => if in_range 1 9 a then Some (digit_val a, rest) else None
      end
  | EmptyString => None
  end.

(** Directive [%d]: the alternatives [3[0-1]], [[1-2]\d], [0[1-9]],
    [[1-9]], [ [1-9]] in order. *)
Definition read_day (s : string) : option (N * string) :=
  match s with
  | String a rest =>
      match rest with
      | String b rest' =>
          if Ascii.eqb a "3" && in_range 0 1 b then Some ((30 + digit_val b)%N, rest')
          else if in_range 1 2 a && in_range 0 9 b
               then Some ((digit_val a * 10 + digit_val b)%N, rest')
          else if Ascii.eqb a "0" && in_range 1 9 b then Some (digit_val b, rest')
          else if in_range 1 9 a then Some (digit_val a, rest)
          else if Ascii.eqb a " " && in_range 1 9 b then Some (digit_val b, rest')
          else None
      | EmptyString => if in_range 1 9 a then Some (digit_val a, rest) else None
      end
  | EmptyString => None
  end.

Definition expect (c : ascii) (s : string) : option string :=
  match s with
  | String d rest => if Ascii.eqb c d then Some rest else None
  | EmptyString => None
  end.

(** [datetime.strptime(s, "%Y-%m-%d")]; [None] stands for [ValueError]. *)
Definition strptime_ymd (s : string) : option datetime :=
  match read_year s with
  | None => None
  | Some (y, s1) =>
      match expect "-" s1 with
      | None => None
      | Some s2 =>
          match read_month s2 with
          | None => None
          | Some (m, s3) =>
              match expect "-" s3 with
              | None => None
              | Some s4 =>
                  match read_day s4 with
                  | Some (d, EmptyString) => make_date y m d
                  | _ => None
                  end
              end
          end
      end
  end.

End Calendar.

Import Calendar.

(** ** Noise filter *)

Module Regex.

(** The fragment of [re] patterns the model interprets: literal
    characters and the wildcard [.]. *)
Inductive atom : Type :=
| Any
| Lit (c : ascii).

Definition is_meta (c : ascii) : bool :=
  existsb (Ascii.eqb c)
    ["\"; "^"; "$"; "*"; "+"; "?"; "{"; "}"; "["; "]"; "|"; "("; ")"]%char.

(** [re.compile(pat)]; [None] for a pattern that uses an operator outside
    the fragment. *)
Fixpoint compile (pat : string) : option (list atom) :=
  match pat with
  | EmptyString => Some []
  | String c pat' =>
      if is_meta c then None
      else
        match compile pat' with
        | None => None
        | Some re => Some ((if Ascii.eqb c "." then Any else Lit c) :: re)
        end
  end.

(** One atom against one character under [re.IGNORECASE]; [.] matches
    everything but a newline. *)
Definition atom_match (a : atom) (c : ascii) : bool :=
  match a with
  | Any => negb (Ascii.eqb c "010")
  | Lit d => Ascii.eqb (lower_char d) (lower_char c)
  end.

Fixpoint match_here (re : list atom) (s : string) : bool :=
  match re, s with
  | [], _ => true
  | a :: re', String c s' => atom_match a c && match_here re' s'
  | _ :: _, EmptyString => false
  end.

(** [regex.search(s) is not None] *)
Fixpoint search (re : list atom) (s : string) : bool :=
  match_here re s
  || match s with
     | EmptyString => false
     | String _ s' => search re s'
     end.

End Regex.

(** A boolean [pd.Series] over the rows of the frame. *)
Definition series : Type := list bool.

Definition series_or (a b : series) : series :=
  map (fun p => fst p || snd p) (combine a b).

Definition series_and (a b : series) : series :=
  map (fun p => fst p && snd p) (combine a b).

Definition series_not (a : series) : series := map negb a.

(** [full_df['name'].str.contains(pat, case=False, na=False)]: the pattern
    is compiled as a regular expression ([regex=True] is the default) and
    searched in every name. *)
Definition str_contains (pat : string) (full_df : list csv_record) : option series :=
  match Regex.compile pat with
  | None => None
  | Some re => Some (map (fun r => Regex.search re (csv_name r)) full_df)
  end.

(** Inner loop over [KEEP_ACCOUNT_NUMBERS]. *)
Fixpoint keep_loop (keep_account_numbers : list string) (full_df : list csv_record)
    (contains_keep_account : series) : option series :=
  match keep_account_numbers with
  | [] => Some contains_keep_account
  | keep_account :: rest =>
      match str_contains keep_account full_df with
      | None => None
      | Some c => keep_loop rest full_df (series_or contains_keep_account c)
      end
  end.

(** Outer loop over [FILTER_STRINGS]. *)
Fixpoint filter_loop (filter_strings keep_account_numbers : list string)
    (full_df : list csv_record) (filter_condition : series) : option series :=
  match filter_strings with
  | [] => Some filter_condition
  | filter_str :: rest =>
      match str_contains filter_str full_df with
      | None => None
      | Some contains_filter =>
          match keep_loop keep_account_numbers full_df
                  (repeat false (length full_df)) with
          | None => None
          | Some contains_keep_account =>
              filter_loop rest keep_account_numbers full_df
                (series_and filter_condition
                   (series_not
                      (series_and contains_filter
                         (series_not contains_keep_account))))
          end
      end
  end.

Definition filter_condition (filter_strings keep_account_numbers : list string)
    (full_df : list csv_record) : option series :=
  filter_loop filter_strings keep_account_numbers full_df
    (repeat true (length full_df)).

(** [full_df[mask]] *)
Definition select (full_df : list csv_record) (mask : series) : list csv_record :=
  map fst (filter snd (combine full_df mask)).

(** [full_df = full_df[filter_condition]] *)
Definition noise_filter (filter_strings keep_account_numbers : list string)
    (full_df : list csv_record) : option (list csv_record) :=
  option_map (select full_df)
    (filter_condition filter_strings keep_account_numbers full_df).

(** [payments] and [debts]: the two views of the filtered frame. *)
Definition payments (full_df : list csv_record) : list csv_record :=
  filter (fun r => notna_positive (csv_payment r)) full_df.

Definition debts (full_df : list csv_record) : list csv_record :=
  filter (fun r => notna_positive (csv_cost r)) full_df.


(** ** Effects: the logger and the two worksheets *)

Inductive ledger : Type := Expense | Income.

Inductive log_level : Type := DEBUG | INFO | WARNING.

(** The messages of the modelled part of the script, with the values
    their f-strings interpolate. *)
Inductive log_msg : Type :=
| Banner
| Processing (l : ledger)
| Queued (l : ledger) (date_val name_val : string) (amount_val : float)
| SkippingDuplicate (l : ledger) (date_val name_val : string) (amount_val : float)
| Merging (l : ledger) (count : nat)
| Updating (l : ledger) (count : nat)
| AppliedFormat (first_row last_row : Z)
| Added (l : ledger) (count : nat)
| NoNewRows (l : ledger)
| InvalidDate (date_val : string).

(** Calls on a worksheet; [batch_clear] and [update] address the
    configured [data_range]. *)
Inductive sheet_call : Type :=
| batch_clear
| update (values : list (list cell))
| format (first_row last_row : Z).

Record world : Type := mk_world {
  logger : list (log_level * log_msg);
  expense_sheet : list sheet_call;
  income_sheet : list sheet_call
}.

Definition Run (A : Type) : Type := world -> A * world.

Definition ret {A : Type} (a : A) : Run A := fun w => (a, w).

Definition bind {A B : Type} (c : Run A) (k : A -> Run B) : Run B :=
  fun w => let (a, w') := c w in k a w'.

Notation "x <- c ;; k" := (bind c (fun x => k))
  (at level 61, c at next level, right associativity).
Notation "c ;;; k" := (bind c (fun _ => k))
  (at level 61, right associativity).

Definition log (lvl : log_level) (m : log_msg) : Run unit :=
  fun w => (tt, mk_world (logger w ++ [(lvl, m)]) (expense_sheet w) (income_sheet w)).

Definition call (l : ledger) (c : sheet_call) : Run unit :=
  fun w =>
    match l with
    | Expense => (tt, mk_world (logger w) (expense_sheet w ++ [c]) (income_sheet w))
    | Income => (tt, mk_world (logger w) (expense_sheet w) (income_sheet w ++ [c]))
    end.

(** What a worksheet call does to the content of the data range. *)
Definition apply_call (content : list (list cell)) (c : sheet_call) : list (list cell) :=
  match c with
  | batch_clear => []
  | update values => values
  | format _ _ => content
  end.

Definition range_after (content : list (list cell)) (cs : list sheet_call) : list (list cell) :=
  fold_left apply_call cs content.

(** ** Ledger merger *)

(** The dictionaries [merge_and_sort_data] works on. *)
Record row_dict : Type := mk_row {
  date : string;
  name : string;
  amount : cell;
  category : string;
  notes : string;
  date_obj : option datetime
}.

Section Merger.

(** [datetime.strptime(s, DATE_FORMAT)]: [None] stands for [ValueError]. *)
Variable strptime : string -> option datetime.

(** [len(row) >= 1 and row[0]] *)
Definition has_date (row : list string) : bool :=
  (1 <=? length row)%nat && truthy (nth 0 row "").

(** The dictionary built from an existing worksheet row. *)
Definition existing_dict (row : list string) : row_dict :=
  {| date := strip (nth 0 row "");
     name := if (1 <? length row)%nat then strip (nth 1 row "") else "";
     amount := CStr (if (2 <? length row)%nat then nth 2 row "" else "");
     category := if (3 <? length row)%nat then nth 3 row "" else "";
     notes := if (4 <? length row)%nat then nth 4 row "" else "";
     date_obj := None |}.

(** First loop: the existing rows that have a date. *)
Fixpoint add_existing (existing_data : list (list string)) : list row_dict :=
  match existing_data with
  | [] => []
  | row :: rest =>
      if has_date row then existing_dict row :: add_existing rest
      else add_existing rest
  end.

Definition set_date_obj (row : row_dict) (d : datetime) : row_dict :=
  {| date := date row; name := name row; amount := amount row;
     category := category row; notes := notes row; date_obj := Some d |}.

(** Third loop: parse every date, falling back to [datetime.min] with a
    warning. *)
Fixpoint parse_dates (all_rows : list row_dict) : Run (list row_dict) :=
  match all_rows with
  | [] => ret []
  | row :: rest =>
      row' <- match strptime (date row) with
              | Some d => ret (set_date_obj row d)
              | None =>
                  log WARNING (InvalidDate (date row)) ;;;
                  ret (set_date_obj row datetime_min)
              end ;;
      rest' <- parse_dates rest ;;
      ret (row' :: rest')
  end.

(** The sort key [x['date_obj']]; every row carries one once [parse_dates]
    has run. *)
Definition sort_key (row : row_dict) : datetime :=
  match date_obj row with
  | Some d => d
  | None => datetime_min
  end.

Fixpoint insert_by_key (x : row_dict) (l : list row_dict) : list row_dict :=
  match l with
  | [] => [x]
  | y :: l' =>
      if (sort_key x <=? sort_key y)%N then x :: l
      else y :: insert_by_key x l'
  end.

(** [all_rows.sort(key=lambda x: x['date_obj'])]: the stable sort, as an
    insertion sort that puts a row in front of the later rows of equal
    key. *)
Fixpoint sort_rows (all_rows : list row_dict) : list row_dict :=
  match all_rows with
  | [] => []
  | x :: l => insert_by_key x (sort_rows l)
  end.

(** The five-cell list written back for one dictionary. *)
Definition to_list (row : row_dict) : list cell :=
  [CStr (date row); CStr (name row); amount row;
   CStr (category row); CStr (notes row)].

Definition merge_and_sort_data (existing_data : list (list string))
    (new_rows : list row_dict) : Run (list (list cell)) :=
  let all_rows := add_existing existing_data ++ new_rows in
  parsed <- parse_dates all_rows ;;
  ret (map to_list (sort_rows parsed)).

(** The parsed date of a written-back row: that of its first cell. *)
Definition parsed_date (s : string) : datetime :=
  match strptime s with
  | Some d => d
  | None => datetime_min
  end.

(** The text of the date cell of a written-back row. *)
Definition date_cell (row : list cell) : string :=
  match row with
  | CStr s :: _ => s
  | _ => ""
  end.

Definition row_date (row : list cell) : datetime :=
  parsed_date (date_cell row).

End Merger.

(** ** Sync orchestrator: the two write-back blocks *)

Section Orchestrator.

Variable py_float : string -> option float.
Variable strptime : string -> option datetime.

(** [DATA_START_ROW] of the configuration. *)
Variable DATA_START_ROW : Z.

(** [row_exists] as a step of the run: its body has no logger call and no
    worksheet call, and the [ValueError] of [float] is handled inside. *)
Definition row_exists_run (date_str name_str : string) (amount_val : float)
    (sheet_data : list (list string)) (csv_data : list csv_record) : Run bool :=
  ret (row_exists py_float date_str name_str amount_val sheet_data csv_data).

(** The loop that queues the rows of one view which [row_exists] does not
    report; [amount_of] is the column the view is built on. *)
Fixpoint queue_rows (l : ledger) (amount_of : csv_record -> float)
    (view : list csv_record) (data_rows : list (list string))
    (full_df : list csv_record) : Run (list row_dict) :=
  match view with
  | [] => ret []
  | row :: rest =>
      let date_val := csv_date row in
      let name_val := csv_name row in
      let amount_val := amount_of row in
      found <- row_exists_run date_val name_val amount_val data_rows full_df ;;
      queued <-
        (if negb found
         then
           log INFO (Queued l date_val name_val amount_val) ;;;
           ret [{| date := date_val; name := name_val; amount := CNum amount_val;
                   category := ""; notes := ""; date_obj := None |}]
         else
           log INFO (SkippingDuplicate l date_val name_val amount_val) ;;;
           ret []) ;;
      more <- queue_rows l amount_of rest data_rows full_df ;;
      ret (queued ++ more)
  end.

(** The block guarded by [if new_rows:]. *)
Definition write_back (l : ledger) (data_rows : list (list string))
    (new_rows : list row_dict) : Run unit :=
  match new_rows with
  | _ :: _ =>
      log INFO (Merging l (length new_rows)) ;;;
      merged <- merge_and_sort_data strptime data_rows new_rows ;;
      log INFO (Updating l (length merged)) ;;;
      call l batch_clear ;;;
      (match merged with
       | _ :: _ =>
           call l (update merged) ;;;
           let num_rows := Z.of_nat (length merged) in
           call l (format DATA_START_ROW (DATA_START_ROW + num_rows - 1)) ;;;
           log DEBUG (AppliedFormat DATA_START_ROW (DATA_START_ROW + num_rows - 1))
       | [] => ret tt
       end) ;;;
      log INFO (Added l (length new_rows))
  | [] => log INFO (NoNewRows l)
  end.

Definition process_ledger (l : ledger) (amount_of : csv_record -> float)
    (view : list csv_record) (data_rows : list (list string))
    (full_df : list csv_record) : Run unit :=
  log INFO Banner ;;;
  log INFO (Processing l) ;;;
  log INFO Banner ;;;
  new_rows <- queue_rows l amount_of view data_rows full_df ;;
  write_back l data_rows new_rows.

(** Lines 273-317: the expense block. *)
Definition new_expense_rows (expense_data_rows : list (list string))
    (full_df : list csv_record) : Run (list row_dict) :=
  queue_rows Expense csv_cost (debts full_df) expense_data_rows full_df.

Definition process_expenses (expense_data_rows : list (list string))
    (full_df : list csv_record) : Run unit :=
  process_ledger Expense csv_cost (debts full_df) expense_data_rows full_df.

(** Lines 319-363: the income block. *)
Definition new_income_rows (income_data_rows : list (list string))
    (full_df : list csv_record) : Run (list row_dict) :=
  queue_rows Income csv_payment (payments full_df) income_data_rows full_df.

Definition process_income (income_data_rows : list (list string))
    (full_df : list csv_record) : Run unit :=
  process_ledger Income csv_payment (payments full_df) income_data_rows full_df.

End Orchestrator.

Definition world0 : world := mk_world [] [] [].

(** ** Vocabulary of the statements *)

(** The rule the CSV loop applies to one record. *)
Definition csv_rule (date_str name_str : string) (amount_val : float)
    (other : csv_record) : Prop :=
  normalize (csv_name other) = normalize name_str
  /\ (exists x, csv_amount other = Some x /\ within_cent x amount_val = true)
  /\ csv_date other <> date_str.

(** A dictionary after the date loop. *)
Definition stamp (strptime : string -> option datetime) (row : row_dict) : row_dict :=
  set_date_obj row (parsed_date strptime (date row)).

(** The warnings the date loop emits, in the order of the rows. *)
Definition warnings (strptime : string -> option datetime)
    (rows : list row_dict) : list (log_level * log_msg) :=
  flat_map (fun row =>
              match strptime (date row) with
              | Some _ => []
              | None => [(WARNING, InvalidDate (date row))]
              end) rows.

(** A world whose log has grown by the given records and whose worksheets
    are as before. *)
Definition add_log (w : world) (entries : list (log_level * log_msg)) : world :=
  mk_world (logger w ++ entries) (expense_sheet w) (income_sheet w).

(** The five cells written back for an existing row: date and name
    stripped, the next three cells as they are, absent cells empty. *)
Definition existing_image (row : list string) : list cell :=
  [CStr (strip (nth 0 row "")); CStr (strip (nth 1 row ""));
   CStr (nth 2 row ""); CStr (nth 3 row ""); CStr (nth 4 row "")].

(** The five cells written back for a queued CSV record. *)
Definition queued_image (amount_of : csv_record -> float) (r : csv_record) : list cell :=
  [CStr (csv_date r); CStr (csv_name r); CNum (amount_of r); CStr ""; CStr ""].

(** Ascending order of the sort keys of dictionaries. *)
Definition key_le (a b : row_dict) : Prop := (sort_key a <= sort_key b)%N.

(** Ascending order of the parsed dates of written-back rows. *)
Definition date_le (strptime : string -> option datetime) (a b : list cell) : Prop :=
  (row_date strptime a <= row_date strptime b)%N.

(** The rows of a given parsed date, in the order of the list. *)
Definition dated (strptime : string -> option datetime) (d : datetime)
    (rows : list (list cell)) : list (list cell) :=
  filter (fun row => (row_date strptime row =? d)%N) rows.

(** The claim that rows with an unparseable date come before every row
    with a parseable one. *)
Definition unparseable_first (strptime : string -> option datetime)
    (out : list (list cell)) : Prop :=
  forall i j u p,
    nth_error out i = Some u -> nth_error out j = Some p ->
    strptime (date_cell u) = None -> strptime (date_cell p) <> None ->
    (i < j)%nat.

(** A step of the run that leaves a record in the log. *)
Definition logs_something {A : Type} (c : Run A) (w : world) : Prop :=
  logger (snd (c w)) <> logger w.

(** The dictionary queued for a CSV record. *)
Definition new_dict (amount_of : csv_record -> float) (r : csv_record) : row_dict :=
  {| date := csv_date r; name := csv_name r; amount := CNum (amount_of r);
     category := ""; notes := ""; date_obj := None |}.

(** The records of a view that [row_exists] does not report. *)
Definition accepted (py_float : string -> option float)
    (amount_of : csv_record -> float) (data_rows : list (list string))
    (full_df : list csv_record) (r : csv_record) : bool :=
  negb (row_exists py_float (csv_date r) (csv_name r) (amount_of r)
          data_rows full_df).

(** The log record the queueing loop writes for one record of a view. *)
Definition queue_entry (py_float : string -> option float) (l : ledger)
    (amount_of : csv_record -> float) (data_rows : list (list string))
    (full_df : list csv_record) (r : csv_record) : log_level * log_msg :=
  if accepted py_float amount_of data_rows full_df r
  then (INFO, Queued l (csv_date r) (csv_name r) (amount_of r))
  else (INFO, SkippingDuplicate l (csv_date r) (csv_name r) (amount_of r)).

(** Has a non-empty first cell. *)
Definition dated_row (row : list string) : bool := truthy (nth 0 row "").

(** *** The noise filter as the specification words it *)

(** Case-insensitive plain substring containment. *)
Definition contains_ci (pat s : string) : bool :=
  is_substring (lower pat) (lower s).

(** A record is vetoed by an exclude pattern when its name contains the
    pattern and no keep pattern; it survives when no exclude pattern vetoes
    it. *)
Definition survives (exclude_patterns keep_patterns : list string)
    (r : csv_record) : bool :=
  forallb (fun pat =>
             negb (contains_ci pat (csv_name r)
                   && negb (existsb (fun k => contains_ci k (csv_name r))
                              keep_patterns)))
    exclude_patterns.

Definition spec_noise_filter (exclude_patterns keep_patterns : list string)
    (records : list csv_record) : list csv_record :=
  filter (survives exclude_patterns keep_patterns) records.

(** A pattern without regular-expression operators. *)
Fixpoint plain (pat : string) : bool :=
  match pat with
  | EmptyString => true
  | String c pat' => negb (Regex.is_meta c) && negb (Ascii.eqb c ".") && plain pat'
  end.

(** ** Configuration lists and the sequence of the two blocks *)

(** [value.split(',')] *)
Fixpoint split_comma (value : string) : list string :=
  match value with
  | EmptyString => [EmptyString]
  | String c rest =>
      if Ascii.eqb c ","
      then EmptyString :: split_comma rest
      else
        match split_comma rest with
        | first :: others => String c first :: others
        | [] => [String c EmptyString]
        end
  end.

(** [[s.strip() for s in value.split(',')]]: how [FILTER_STRINGS] and
    [KEEP_ACCOUNT_NUMBERS] are read from their configuration values. *)
Definition config_list (value : string) : list string :=
  map strip (split_comma value).

(** Lines 273-363: the expense block, then the income block, each on the
    rows fetched from its worksheet beforehand. *)
Definition process_both (py_float : string -> option float)
    (strptime : string -> option datetime) (DATA_START_ROW : Z)
    (expense_data_rows income_data_rows : list (list string))
    (full_df : list csv_record) : Run unit :=
  process_expenses py_float strptime DATA_START_ROW expense_data_rows full_df ;;;
  process_income py_float strptime DATA_START_ROW income_data_rows full_df.

(** *** Further vocabulary *)

(** The rule the worksheet loop applies to one row. *)
Definition sheet_rule (py_float : string -> option float) (name_str : string)
    (amount_val : float) (row : list string) : Prop :=
  (3 <= length row)%nat
  /\ normalize (nth 1 row "") = normalize name_str
  /\ exists x, py_float (money_text (nth 2 row "")) = Some x
               /\ within_cent x amount_val = true.

(** The call history of one worksheet. *)
Definition sheet_of (l : ledger) (w : world) : list sheet_call :=
  match l with
  | Expense => expense_sheet w
  | Income => income_sheet w
  end.

Definition other_ledger (l : ledger) : ledger :=
  match l with
  | Expense => Income
  | Income => Expense
  end.

(** A world grown by log records and by calls on one worksheet. *)
Definition extend (w : world) (entries : list (log_level * log_msg))
    (l : ledger) (cs : list sheet_call) : world :=
  match l with
  | Expense => mk_world (logger w ++ entries) (expense_sheet w ++ cs) (income_sheet w)
  | Income => mk_world (logger w ++ entries) (expense_sheet w) (income_sheet w ++ cs)
  end.

(** The pattern is in the fragment of [Regex]. *)
Definition compiles (pat : string) : bool :=
  match Regex.compile pat with
  | Some _ => true
  | None => false
  end.

(** The name matches the pattern, read as a regular expression without
    regard to case. *)
Definition re_contains (pat s : string) : bool :=
  match Regex.compile pat with
  | Some re => Regex.search re s
  | None => false
  end.

(** Some keep pattern matches the name of the record. *)
Definition keep_match (keep_account_numbers : list string) (r : csv_record) : bool :=
  existsb (fun k => re_contains k (csv_name r)) keep_account_numbers.

(** No exclude pattern matches the name without a keep pattern matching
    it as well. *)
Definition re_survives (filter_strings keep_account_numbers : list string)
    (r : csv_record) : bool :=
  forallb (fun pat =>
             negb (re_contains pat (csv_name r)
                   && negb (keep_match keep_account_numbers r)))
    filter_strings.

(** The texts of the five cells written back for an existing row. *)
Definition existing_texts (row : list string) : list string :=
  [strip (nth 0 row ""); strip (nth 1 row "");
   nth 2 row ""; nth 3 row ""; nth 4 row ""].

(** * Properties *)

(** ** Duplicate detector *)

Section DetectorProperties.

Variable py_float : string -> option float.

Lemma existing_name_normalize (s : string) :
  (if truthy s then lower (strip s) else "") = normalize s.
Proof. destruct s; reflexivity. Qed.

(** The equation of one turn of the worksheet loop. *)
Lemma sheet_scan_cons (n : string) (a : float) (row : list string)
    (rest : list (list string)) :
  sheet_scan py_float n a (row :: rest)
  = if (3 <=? length row)%nat then
      if negb (String.eqb (normalize (nth 1 row "")) n) then
        sheet_scan py_float n a rest
      else
        match py_float (money_text (nth 2 row "")) with
        | None => sheet_scan py_float n a rest
        | Some x => if within_cent x a then true else sheet_scan py_float n a rest
        end
    else sheet_scan py_float n a rest.
Proof.
  cbn [sheet_scan]. rewrite existing_name_normalize. reflexivity.
Qed.

Lemma sheet_scan_app (n : string) (a : float) (xs ys : list (list string)) :
  sheet_scan py_float n a (xs ++ ys)
  = sheet_scan py_float n a xs || sheet_scan py_float n a ys.
Proof.
  induction xs as [|row xs IH]; [reflexivity|].
  rewrite <- app_comm_cons, !sheet_scan_cons.
  destruct (3 <=? length row)%nat; [|exact IH].
  destruct (negb _); [exact IH|].
  destruct (py_float _) as [x|]; [|exact IH].
  destruct (within_cent x a); [reflexivity|exact IH].
Qed.

(** A row whose name matches and whose amount parses within the tolerance
    makes the worksheet loop answer [true]. *)
Lemma sheet_scan_hit (n : string) (a x : float) (row : list string)
    (rest : list (list string)) :
  (3 <= length row)%nat ->
  normalize (nth 1 row "") = n ->
  py_float (money_text (nth 2 row "")) = Some x ->
  within_cent x a = true ->
  sheet_scan py_float n a (row :: rest) = true.
Proof.
  intros Hlen Hname Hparse Hnear. rewrite sheet_scan_cons.
  apply Nat.leb_le in Hlen. rewrite Hlen, Hname, String.eqb_refl.
  cbn [negb]. rewrite Hparse, Hnear. reflexivity.
Qed.

(** A row whose name matches but whose amount does not parse is passed
    over. *)
Lemma sheet_scan_skip (n : string) (a : float) (row : list string)
    (rest : list (list string)) :
  py_float (money_text (nth 2 row "")) = None ->
  sheet_scan py_float n a (row :: rest) = sheet_scan py_float n a rest.
Proof.
  intros Hparse. rewrite sheet_scan_cons.
  destruct (3 <=? length row)%nat; [|reflexivity].
  destruct (negb _); [reflexivity|].
  rewrite Hparse. reflexivity.
Qed.

Lemma csv_scan_iff (date_str name_str : string) (a : float)
    (csv_data : list csv_record) :
  csv_scan date_str (normalize name_str) a csv_data = true
  <-> exists other, In other csv_data /\ csv_rule date_str name_str a other.
Proof.
  induction csv_data as [|r rest IH]; cbn [csv_scan In].
  - split; [discriminate|]. intros (o & [] & _).
  - destruct (String.eqb_spec (lower (strip (csv_name r))) (normalize name_str))
      as [Hn|Hn]; cbn [negb].
    + destruct (csv_amount r) as [x|] eqn:Hamt.
      * destruct (within_cent x a) eqn:Hnear; cbn [andb].
        -- destruct (String.eqb_spec (csv_date r) date_str) as [Hd|Hd]; cbn [negb].
           ++ rewrite IH. split.
              ** intros (o & Ho & Hr). exists o. auto.
              ** intros (o & [Ho|Ho] & Hr); [|exists o; auto].
                 subst o. destruct Hr as (_ & _ & Hne). contradiction.
           ++ split; [|reflexivity]. intros _. exists r. split; [now left|].
              repeat split; [exact Hn| |exact Hd]. exists x. auto.
        -- rewrite IH. split.
           ++ intros (o & Ho & Hr). exists o. auto.
           ++ intros (o & [Ho|Ho] & Hr); [|exists o; auto].
              subst o. destruct Hr as (_ & (y & Hy & Hy') & _).
              rewrite Hamt in Hy. injection Hy as <-. congruence.
      * rewrite IH. split.
        -- intros (o & Ho & Hr). exists o. auto.
        -- intros (o & [Ho|Ho] & Hr); [|exists o; auto].
           subst o. destruct Hr as (_ & (y & Hy & _) & _). congruence.
    + rewrite IH. split.
      * intros (o & Ho & Hr). exists o. auto.
      * intros (o & [Ho|Ho] & Hr); [|exists o; auto].
        subst o. destruct Hr as (Hm & _). contradiction.
Qed.

(** C1. A worksheet row with at least three cells whose normalized name
    equals the candidate's and whose amount cell, once [$] and [,] are
    removed, parses to a number within 0.01 of the candidate's amount makes
    [row_exists] answer [true], whatever the date cell of the row, the date
    of the candidate, the other rows and the CSV frame are. *)
Theorem ledger_match_ignores_dates
    (r_date r_name r_amount : string) (more_cells : list string)
    (date_str name_str : string) (amount_val existing_amount : float)
    (before after : list (list string)) (csv_data : list csv_record) :
  normalize r_name = normalize name_str ->
  py_float (money_text r_amount) = Some existing_amount ->
  within_cent existing_amount amount_val = true ->
  row_exists py_float date_str name_str amount_val
    (before ++ (r_date :: r_name :: r_amount :: more_cells) :: after)
    csv_data = true.
Proof.
  intros Hname Hparse Hnear. unfold row_exists.
  rewrite sheet_scan_app.
  rewrite (sheet_scan_hit (lower (strip name_str)) amount_val existing_amount
             (r_date :: r_name :: r_amount :: more_cells) after);
    [rewrite orb_true_r; reflexivity|cbn [length]; lia|exact Hname
    |exact Hparse|exact Hnear].
Qed.

(** C2. [row_exists] answers [true] exactly when the worksheet loop finds a
    match or some record of the CSV frame has the candidate's normalized
    name, carries a positive amount (its cost, else its payment) within 0.01
    of the candidate's, and has a date different from the candidate's; a
    record carrying the candidate's own date is never a match of the CSV
    loop. *)
Theorem batch_rule_iff
    (date_str name_str : string) (amount_val : float)
    (sheet_data : list (list string)) (csv_data : list csv_record) :
  (row_exists py_float date_str name_str amount_val sheet_data csv_data = true
   <-> sheet_scan py_float (normalize name_str) amount_val sheet_data = true
       \/ exists other, In other csv_data
                        /\ csv_rule date_str name_str amount_val other)
  /\ (forall other, csv_date other = date_str ->
        row_exists py_float date_str name_str amount_val [] [other] = false).
Proof.
  split.
  - unfold row_exists. fold (normalize name_str).
    rewrite <- csv_scan_iff.
    destruct (sheet_scan py_float (normalize name_str) amount_val sheet_data).
    + split; auto.
    + split; [auto|]. intros [H|H]; [discriminate|exact H].
  - intros other Hdate.
    destruct (row_exists py_float date_str name_str amount_val [] [other]) eqn:E;
      [|reflexivity].
    unfold row_exists in E. fold (normalize name_str) in E. simpl sheet_scan in E.
    apply csv_scan_iff in E. destruct E as (o & [Ho|[]] & _ & _ & Hne).
    subst o. contradiction.
Qed.

End DetectorProperties.

(** ** The run monad *)

Lemma add_log_nil (w : world) : add_log w [] = w.
Proof. destruct w. unfold add_log. cbn. rewrite app_nil_r. reflexivity. Qed.

Lemma add_log_app (w : world) (a b : list (log_level * log_msg)) :
  add_log (add_log w a) b = add_log w (a ++ b).
Proof. unfold add_log. cbn. rewrite app_assoc. reflexivity. Qed.

Lemma log_run (lvl : log_level) (m : log_msg) (w : world) :
  log lvl m w = (tt, add_log w [(lvl, m)]).
Proof. reflexivity. Qed.

(** ** Ledger merger *)

Section MergerProperties.

Variable strptime : string -> option datetime.

Lemma parse_dates_run (rows : list row_dict) (w : world) :
  parse_dates strptime rows w
  = (map (stamp strptime) rows, add_log w (warnings strptime rows)).
Proof.
  revert w. induction rows as [|row rest IH]; intros w.
  - cbn. rewrite add_log_nil. reflexivity.
  - cbn [parse_dates map warnings flat_map]. unfold bind at 1.
    unfold stamp at 1, parsed_date.
    destruct (strptime (date row)) as [d|].
    + unfold ret at 1. unfold bind at 1. rewrite IH. reflexivity.
    + unfold bind at 1. rewrite log_run. unfold ret at 1.
      unfold bind at 1. rewrite IH, add_log_app. reflexivity.
Qed.

Lemma merge_run (existing_data : list (list string)) (new_rows : list row_dict)
    (w : world) :
  merge_and_sort_data strptime existing_data new_rows w
  = (map to_list
       (sort_rows (map (stamp strptime) (add_existing existing_data ++ new_rows))),
     add_log w (warnings strptime (add_existing existing_data ++ new_rows))).
Proof.
  unfold merge_and_sort_data, bind. rewrite parse_dates_run. reflexivity.
Qed.

Lemma add_existing_filter (existing_data : list (list string)) :
  add_existing existing_data = map existing_dict (filter has_date existing_data).
Proof.
  induction existing_data as [|row rest IH]; [reflexivity|].
  cbn [add_existing filter]. destruct (has_date row); cbn [map]; congruence.
Qed.

Lemma has_date_truthy (row : list string) :
  has_date row = truthy (nth 0 row "").
Proof. destruct row; reflexivity. Qed.

Lemma nth_beyond (i : nat) (row : list string) :
  (if (i <? length row)%nat then nth i row "" else "") = nth i row "".
Proof.
  destruct (Nat.ltb_spec i (length row)); [reflexivity|].
  symmetry. apply nth_overflow. lia.
Qed.

Lemma to_list_existing (row : list string) :
  to_list (existing_dict row) = existing_image row.
Proof.
  unfold to_list, existing_dict, existing_image. cbn [date name amount category notes].
  rewrite !nth_beyond.
  destruct (Nat.ltb_spec 1 (length row)); [reflexivity|].
  rewrite (nth_overflow row "" (n := 1)) by lia. reflexivity.
Qed.

Lemma to_list_stamp (row : row_dict) :
  to_list (stamp strptime row) = to_list row.
Proof. reflexivity. Qed.

Lemma sort_key_stamp (row : row_dict) :
  sort_key (stamp strptime row) = row_date strptime (to_list row).
Proof. reflexivity. Qed.

(** *** The stable sort *)

Lemma insert_perm (x : row_dict) (l : list row_dict) :
  Permutation (insert_by_key x l) (x :: l).
Proof.
  induction l as [|y l IH]; cbn [insert_by_key]; [reflexivity|].
  destruct (sort_key x <=? sort_key y)%N; [reflexivity|].
  rewrite IH. apply perm_swap.
Qed.

Lemma sort_perm (l : list row_dict) : Permutation (sort_rows l) l.
Proof.
  induction l as [|x l IH]; cbn [sort_rows]; [reflexivity|].
  rewrite insert_perm. now constructor.
Qed.

Lemma insert_sorted (x : row_dict) (l : list row_dict) :
  StronglySorted key_le l -> StronglySorted key_le (insert_by_key x l).
Proof.
  induction 1 as [|y l Hs IH Hall]; cbn [insert_by_key].
  - repeat constructor.
  - destruct (N.leb_spec (sort_key x) (sort_key y)) as [Hle|Hgt].
    + constructor; [now constructor|]. constructor; [exact Hle|].
      eapply Forall_impl; [|exact Hall]. unfold key_le. intros; lia.
    + constructor; [exact IH|].
      rewrite Forall_forall.
      intros z Hz. apply (Permutation_in _ (insert_perm x l)) in Hz.
      destruct Hz as [<-|Hz]; [unfold key_le; lia|].
      rewrite Forall_forall in Hall. now apply Hall.
Qed.

Lemma sort_sorted (l : list row_dict) : StronglySorted key_le (sort_rows l).
Proof.
  induction l as [|x l IH]; cbn [sort_rows]; [constructor|].
  now apply insert_sorted.
Qed.

(** Inserting a row moves it past rows of a strictly smaller key only, so
    the rows of any one key stay in their order. *)
Lemma insert_stable (d : datetime) (x : row_dict) (l : list row_dict) :
  filter (fun r => (sort_key r =? d)%N) (insert_by_key x l)
  = filter (fun r => (sort_key r =? d)%N) (x :: l).
Proof.
  induction l as [|y l IH]; cbn [insert_by_key]; [reflexivity|].
  destruct (N.leb_spec (sort_key x) (sort_key y)) as [Hle|Hgt]; [reflexivity|].
  cbn [filter] in *. rewrite IH.
  destruct (N.eqb_spec (sort_key y) d), (N.eqb_spec (sort_key x) d);
    try reflexivity.
  lia.
Qed.

Lemma sort_stable (d : datetime) (l : list row_dict) :
  filter (fun r => (sort_key r =? d)%N) (sort_rows l)
  = filter (fun r => (sort_key r =? d)%N) l.
Proof.
  induction l as [|x l IH]; cbn [sort_rows]; [reflexivity|].
  rewrite insert_stable. cbn [filter]. rewrite IH. reflexivity.
Qed.

Lemma sort_sorted_id (l : list row_dict) :
  StronglySorted key_le l -> sort_rows l = l.
Proof.
  induction 1 as [|x l Hs IH Hall]; cbn [sort_rows]; [reflexivity|].
  rewrite IH. destruct l as [|y l]; cbn [insert_by_key]; [reflexivity|].
  apply Forall_inv in Hall. unfold key_le in Hall.
  apply N.leb_le in Hall. rewrite Hall. reflexivity.
Qed.

Lemma sorted_nth (A : Type) (R : A -> A -> Prop) (l : list A) :
  StronglySorted R l ->
  forall i j a b, (i < j)%nat -> nth_error l i = Some a ->
                  nth_error l j = Some b -> R a b.
Proof.
  induction 1 as [|x l Hs IH Hall]; intros i j a b Hij Hi Hj.
  - destruct i; discriminate.
  - destruct j as [|j]; [lia|]. cbn in Hj. destruct i as [|i]; cbn in Hi.
    + injection Hi as <-. rewrite Forall_forall in Hall.
      apply Hall. eapply nth_error_In; eassumption.
    + apply (IH i j); [lia|assumption..].
Qed.

Lemma sorted_map_in (A B : Type) (R : A -> A -> Prop) (R' : B -> B -> Prop)
    (f : A -> B) (l : list A) :
  (forall a b, In a l -> In b l -> R a b -> R' (f a) (f b)) ->
  StronglySorted R l -> StronglySorted R' (map f l).
Proof.
  intros Hf Hs. induction Hs as [|x l Hs IH Hall]; cbn [map]; [constructor|].
  constructor.
  - apply IH. intros a b Ha Hb. apply Hf; now right.
  - rewrite Forall_forall in *. intros y Hy.
    apply in_map_iff in Hy. destruct Hy as (z & <- & Hz).
    apply Hf; [now left|now right|now apply Hall].
Qed.

(** The rows the sort works on all carry the parsed date of their date
    field as key. *)
Lemma sorted_rows_stamped (rows : list row_dict) (x : row_dict) :
  In x (sort_rows (map (stamp strptime) rows)) ->
  sort_key x = row_date strptime (to_list x).
Proof.
  intros Hx. apply (Permutation_in _ (sort_perm _)) in Hx.
  apply in_map_iff in Hx. destruct Hx as (r & <- & _). reflexivity.
Qed.

Lemma merged_sorted (rows : list row_dict) :
  StronglySorted (date_le strptime)
    (map to_list (sort_rows (map (stamp strptime) rows))).
Proof.
  apply (sorted_map_in _ _ key_le); [|apply sort_sorted].
  intros a b Ha Hb Hab. unfold date_le. unfold key_le in Hab.
  rewrite <- (sorted_rows_stamped rows a Ha), <- (sorted_rows_stamped rows b Hb).
  exact Hab.
Qed.

Lemma filter_map_comm (A B : Type) (f : A -> B) (p : B -> bool) (l : list A) :
  filter p (map f l) = map f (filter (fun a => p (f a)) l).
Proof.
  induction l as [|a l IH]; cbn [map filter]; [reflexivity|].
  destruct (p (f a)); cbn [map]; congruence.
Qed.

Lemma merged_dated (d : datetime) (rows : list row_dict) :
  dated strptime d (map to_list (sort_rows (map (stamp strptime) rows)))
  = dated strptime d (map to_list rows).
Proof.
  unfold dated. rewrite !filter_map_comm.
  rewrite (filter_ext_in _ (fun r => (sort_key r =? d)%N)).
  - rewrite sort_stable, filter_map_comm, map_map. reflexivity.
  - intros a Ha. now rewrite (sorted_rows_stamped rows a Ha).
Qed.

Lemma merged_perm (rows : list row_dict) :
  Permutation (map to_list (sort_rows (map (stamp strptime) rows)))
    (map to_list rows).
Proof.
  rewrite sort_perm, map_map. reflexivity.
Qed.

End MergerProperties.

Section MergerClaims.

Variable strptime : string -> option datetime.

Lemma filter_has_date (existing_data : list (list string)) :
  filter has_date existing_data = filter dated_row existing_data.
Proof. apply filter_ext. exact has_date_truthy. Qed.

Lemma existing_images (existing_data : list (list string)) :
  map to_list (add_existing existing_data)
  = map existing_image (filter dated_row existing_data).
Proof.
  rewrite add_existing_filter, filter_has_date, map_map.
  apply map_ext. exact to_list_existing.
Qed.

(** C4. The rows [merge_and_sort_data] returns are in ascending order of
    parsed date, and for every date the rows of that date are the existing
    rows of that date in input order followed by the new rows of that date
    in input order. *)
Theorem merge_sorted_and_stable
    (existing_data : list (list string)) (new_rows : list row_dict) (w : world)
    (d : datetime) :
  StronglySorted (date_le strptime)
    (fst (merge_and_sort_data strptime existing_data new_rows w))
  /\ dated strptime d (fst (merge_and_sort_data strptime existing_data new_rows w))
     = dated strptime d (map existing_image (filter dated_row existing_data))
       ++ dated strptime d (map to_list new_rows).
Proof.
  rewrite merge_run. cbn [fst]. split.
  - apply merged_sorted.
  - rewrite merged_dated, map_app, existing_images.
    unfold dated. apply filter_app.
Qed.

(** C7, as the code has it. Every row is kept; the only effect of the merge
    is one warning per row whose date fails to parse, in the order of the
    rows; such a row gets [datetime.min] as its key, and it comes before
    every row whose date parses to a moment later than [datetime.min]. *)
Theorem invalid_date_sentinel
    (existing_data : list (list string)) (new_rows : list row_dict) (w : world) :
  let all_rows := add_existing existing_data ++ new_rows in
  let out := fst (merge_and_sort_data strptime existing_data new_rows w) in
  Permutation out (map to_list all_rows)
  /\ snd (merge_and_sort_data strptime existing_data new_rows w)
     = add_log w (warnings strptime all_rows)
  /\ (forall row, In row all_rows -> strptime (date row) = None ->
        In (set_date_obj row datetime_min)
          (fst (parse_dates strptime all_rows w)))
  /\ (forall i j u p,
        nth_error out i = Some u -> nth_error out j = Some p ->
        strptime (date_cell u) = None ->
        (datetime_min < row_date strptime p)%N ->
        (i < j)%nat).
Proof.
  intros all_rows out. subst out. rewrite merge_run. cbn [fst snd]. fold all_rows.
  repeat split.
  - apply merged_perm.
  - intros row Hin Hrow. rewrite parse_dates_run. cbn [fst].
    apply in_map_iff. exists row. split; [|exact Hin].
    unfold stamp, parsed_date. rewrite Hrow. reflexivity.
  - intros i j u p Hi Hj Hu Hp.
    assert (Hmin : row_date strptime u = datetime_min).
    { unfold row_date, parsed_date. rewrite Hu. reflexivity. }
    destruct (Nat.lt_trichotomy i j) as [Hlt|[Heq|Hgt]]; [exact Hlt| |].
    + subst j. rewrite Hi in Hj. injection Hj as <-. lia.
    + pose proof (sorted_nth _ _ _ (merged_sorted strptime all_rows)
                    j i p u Hgt Hj Hi) as Hle.
      unfold date_le in Hle. lia.
Qed.

Lemma sorted_of_map (A : Type) (g : A -> datetime) (l : list A) :
  Sorted N.le (map g l) ->
  StronglySorted (fun a b => (g a <= g b)%N) l.
Proof.
  intros Hs. apply Sorted_StronglySorted in Hs; [|exact N.le_trans].
  induction l as [|a l IH]; [constructor|].
  cbn [map] in Hs. apply StronglySorted_inv in Hs. destruct Hs as [Hs Hall].
  constructor; [now apply IH|].
  rewrite Forall_forall in *. intros b Hb. apply Hall. now apply in_map.
Qed.

(** C8, as the code has it. When the parsed dates of the existing rows
    that have a date are ascending, merging with no new rows returns those
    rows in their order, each as its five-cell image; rows without a date
    are left out.  On rows that already are five cells with a non-empty,
    stripped date and a stripped name this is the identity. *)
Theorem merge_nothing_on_sorted
    (existing_data : list (list string)) (w : world) :
  Sorted N.le
    (map (fun row => parsed_date strptime (strip (nth 0 row "")))
       (filter dated_row existing_data)) ->
  fst (merge_and_sort_data strptime existing_data [] w)
  = map existing_image (filter dated_row existing_data)
  /\ ((forall row, In row existing_data ->
         length row = 5%nat /\ dated_row row = true
         /\ strip (nth 0 row "") = nth 0 row ""
         /\ strip (nth 1 row "") = nth 1 row "") ->
      fst (merge_and_sort_data strptime existing_data [] w)
      = map (map CStr) existing_data).
Proof.
  intros Hsorted.
  assert (Hout : fst (merge_and_sort_data strptime existing_data [] w)
                 = map existing_image (filter dated_row existing_data)).
  { rewrite merge_run. cbn [fst]. rewrite app_nil_r.
    rewrite sort_sorted_id.
    - rewrite map_map, (map_ext _ to_list (to_list_stamp strptime)).
      apply existing_images.
    - rewrite add_existing_filter, filter_has_date, map_map.
      apply (sorted_map_in _ _
               (fun a b => (parsed_date strptime (strip (nth 0 a ""))
                            <= parsed_date strptime (strip (nth 0 b "")))%N)).
      + intros a b _ _ Hab. exact Hab.
      + apply sorted_of_map. exact Hsorted. }
  split; [exact Hout|].
  intros Hnormal. rewrite Hout. clear Hout Hsorted.
  induction existing_data as [|row rest IH]; [reflexivity|].
  destruct (Hnormal row (or_introl eq_refl)) as (Hlen & Hd & Hs0 & Hs1).
  cbn [filter map]. rewrite Hd. cbn [map]. f_equal.
  - unfold existing_image. rewrite Hs0, Hs1.
    destruct row as [|a [|b [|c [|e [|f [|g row]]]]]]; try discriminate.
    reflexivity.
  - apply IH. intros r Hr. apply Hnormal. now right.
Qed.

(** C10. The rows returned are, up to the order the sort gives them, the
    images of the existing rows whose first cell is present and non-empty,
    with date and name stripped and amount, category and notes copied as
    they are, together with the new rows; existing rows whose first cell is
    absent or empty do not appear. *)
Theorem existing_rows_normalized
    (existing_data : list (list string)) (new_rows : list row_dict) (w : world) :
  Permutation
    (fst (merge_and_sort_data strptime existing_data new_rows w))
    (map (fun row => [CStr (strip (nth 0 row "")); CStr (strip (nth 1 row ""));
                      CStr (nth 2 row ""); CStr (nth 3 row ""); CStr (nth 4 row "")])
       (filter (fun row => truthy (nth 0 row "")) existing_data)
     ++ map to_list new_rows).
Proof.
  rewrite merge_run. cbn [fst]. rewrite merged_perm, map_app, existing_images.
  reflexivity.
Qed.

End MergerClaims.

(** ** Sync orchestrator *)

Section OrchestratorProperties.

Variable py_float : string -> option float.
Variable strptime : string -> option datetime.
Variable DATA_START_ROW : Z.

Lemma queue_rows_run (l : ledger) (amount_of : csv_record -> float)
    (view : list csv_record) (data_rows : list (list string))
    (full_df : list csv_record) (w : world) :
  queue_rows py_float l amount_of view data_rows full_df w
  = (map (new_dict amount_of)
       (filter (accepted py_float amount_of data_rows full_df) view),
     add_log w (map (queue_entry py_float l amount_of data_rows full_df) view)).
Proof.
  revert w. induction view as [|r rest IH]; intros w.
  - cbn. rewrite add_log_nil. reflexivity.
  - cbn [queue_rows filter map]. unfold queue_entry at 1.
    change (accepted py_float amount_of data_rows full_df r)
      with (negb (row_exists py_float (csv_date r) (csv_name r) (amount_of r)
                    data_rows full_df)).
    unfold bind, row_exists_run, ret, log.
    destruct (row_exists py_float (csv_date r) (csv_name r) (amount_of r)
                data_rows full_df); cbn [negb]; cbv beta iota;
      rewrite IH; unfold add_log; cbn [logger expense_sheet income_sheet app map];
      rewrite <- app_assoc; reflexivity.
Qed.

Lemma accepted_none (amount_of : csv_record -> float)
    (view : list csv_record) (data_rows : list (list string))
    (full_df : list csv_record) :
  (forall r, In r view ->
     row_exists py_float (csv_date r) (csv_name r) (amount_of r)
       data_rows full_df = true) ->
  filter (accepted py_float amount_of data_rows full_df) view = [].
Proof.
  intros Hall. induction view as [|r rest IH]; [reflexivity|].
  cbn [filter]. unfold accepted at 1. rewrite (Hall r (or_introl eq_refl)).
  cbn [negb]. apply IH. intros r' Hr'. apply Hall. now right.
Qed.

(** When no record of the view is accepted, the block only writes to the
    log. *)
Lemma process_ledger_idle (l : ledger) (amount_of : csv_record -> float)
    (view : list csv_record) (data_rows : list (list string))
    (full_df : list csv_record) (w : world) :
  (forall r, In r view ->
     row_exists py_float (csv_date r) (csv_name r) (amount_of r)
       data_rows full_df = true) ->
  exists entries,
    process_ledger py_float strptime DATA_START_ROW l amount_of view
      data_rows full_df w = (tt, add_log w entries).
Proof.
  intros Hall. unfold process_ledger.
  unfold bind at 1. rewrite log_run.
  unfold bind at 1. rewrite log_run.
  unfold bind at 1. rewrite log_run.
  unfold bind at 1. rewrite queue_rows_run, (accepted_none _ _ _ _ Hall).
  cbn [map write_back]. rewrite log_run, !add_log_app.
  eexists. reflexivity.
Qed.

(** C5. In the expense block and in the income block alike, when
    [row_exists] reports every record of the view, the block issues no call
    on either worksheet: no [batch_clear], no [update], no [format]; the
    content of the data range is what it was. *)
Theorem no_accepted_no_write
    (expense_data_rows income_data_rows : list (list string))
    (full_df : list csv_record) (w : world) (content : list (list cell)) :
  ((forall r, In r (debts full_df) ->
      row_exists py_float (csv_date r) (csv_name r) (csv_cost r)
        expense_data_rows full_df = true) ->
   let w' := snd (process_expenses py_float strptime DATA_START_ROW
                    expense_data_rows full_df w) in
   expense_sheet w' = expense_sheet w /\ income_sheet w' = income_sheet w
   /\ range_after content (expense_sheet w')
      = range_after content (expense_sheet w))
  /\ ((forall r, In r (payments full_df) ->
         row_exists py_float (csv_date r) (csv_name r) (csv_payment r)
           income_data_rows full_df = true) ->
      let w' := snd (process_income py_float strptime DATA_START_ROW
                       income_data_rows full_df w) in
      expense_sheet w' = expense_sheet w /\ income_sheet w' = income_sheet w
      /\ range_after content (income_sheet w')
         = range_after content (income_sheet w)).
Proof.
  split; intros Hall w'; subst w'.
  - destruct (process_ledger_idle Expense csv_cost _ _ _ w Hall) as (entries & E).
    unfold process_expenses. rewrite E. cbn. auto.
  - destruct (process_ledger_idle Income csv_payment _ _ _ w Hall) as (entries & E).
    unfold process_income. rewrite E. cbn. auto.
Qed.

(** C6, as the code has it. [row_exists] returns an answer for every
    input and leaves the log and the worksheets as they were; a worksheet
    row whose amount cell does not parse is passed over, the answer being
    the one given without that row.  Nothing is logged about the row. *)
Theorem unparseable_amount_skipped_silently
    (date_str name_str : string) (amount_val : float)
    (before after : list (list string)) (row : list string)
    (csv_data : list csv_record) (w : world) :
  (exists found,
     row_exists_run py_float date_str name_str amount_val
       (before ++ row :: after) csv_data w = (found, w))
  /\ (py_float (money_text (nth 2 row "")) = None ->
      row_exists_run py_float date_str name_str amount_val
        (before ++ row :: after) csv_data w
      = (row_exists py_float date_str name_str amount_val
           (before ++ after) csv_data, w)).
Proof.
  split; [eexists; reflexivity|].
  intros Hparse. unfold row_exists_run, ret, row_exists.
  rewrite !sheet_scan_app, (sheet_scan_skip _ _ _ _ _ Hparse). reflexivity.
Qed.

Lemma in_sorted_merge (existing_data : list (list string))
    (new_rows : list row_dict) (w : world) (out_row : list cell) :
  In out_row (fst (merge_and_sort_data strptime existing_data new_rows w)) ->
  (exists row, In row existing_data /\ dated_row row = true
               /\ out_row = existing_image row)
  \/ (exists r, In r new_rows /\ out_row = to_list r).
Proof.
  intros Hin. rewrite merge_run in Hin. cbn [fst] in Hin.
  apply (Permutation_in _ (merged_perm strptime _)) in Hin.
  rewrite map_app, existing_images in Hin. apply in_app_or in Hin.
  destruct Hin as [Hin|Hin]; apply in_map_iff in Hin;
    destruct Hin as (x & <- & Hx).
  - left. apply filter_In in Hx. exists x. tauto.
  - right. exists x. auto.
Qed.

(** C9. Every row [merge_and_sort_data] returns has exactly five cells.
    A row coming from an existing row holds its first five cells, an
    absent cell being the empty string and cells past the fifth being
    dropped; a row coming from the queueing loop of either block holds the
    date, name and amount of its CSV record and an empty category and
    notes. *)
Theorem merged_rows_have_five_cells
    (l : ledger) (amount_of : csv_record -> float) (view : list csv_record)
    (existing_data : list (list string)) (full_df : list csv_record)
    (new_rows : list row_dict) (w w' : world) (out_row : list cell) :
  (In out_row (fst (merge_and_sort_data strptime existing_data new_rows w)) ->
   length out_row = 5%nat)
  /\ (In out_row
        (fst (merge_and_sort_data strptime existing_data
                (fst (queue_rows py_float l amount_of view existing_data full_df w'))
                w)) ->
      (exists row, In row existing_data /\ dated_row row = true
                   /\ out_row = existing_image row
                   /\ existing_image row = existing_image (firstn 5 row))
      \/ (exists r, In r view /\ out_row = queued_image amount_of r))
  /\ (forall r, In r (fst (queue_rows py_float l amount_of view existing_data
                             full_df w')) ->
        category r = "" /\ notes r = "").
Proof.
  repeat split.
  - intros Hin. apply in_sorted_merge in Hin.
    destruct Hin as [(row & _ & _ & ->)|(r & _ & ->)]; reflexivity.
  - intros Hin. apply in_sorted_merge in Hin.
    destruct Hin as [(row & Hr & Hd & ->)|(r & Hr & ->)].
    + left. exists row. repeat split; auto.
      unfold existing_image. rewrite !nth_firstn. reflexivity.
    + right. rewrite queue_rows_run in Hr. cbn [fst] in Hr.
      apply in_map_iff in Hr. destruct Hr as (c & <- & Hc).
      apply filter_In in Hc. exists c. split; [tauto|reflexivity].
  - rewrite queue_rows_run in H. cbn [fst] in H.
    apply in_map_iff in H. destruct H as (c & <- & _). reflexivity.
  - rewrite queue_rows_run in H. cbn [fst] in H.
    apply in_map_iff in H. destruct H as (c & <- & _). reflexivity.
Qed.

End OrchestratorProperties.

(** ** Noise filter *)

Section NoiseFilterProperties.

Variables filter_strings keep_account_numbers : list string.
Variable full_df : list csv_record.

Lemma compile_plain (pat : string) :
  plain pat = true ->
  exists re, Regex.compile pat = Some re
             /\ forall s, Regex.match_here re s = is_prefix (lower pat) (lower s).
Proof.
  induction pat as [|c pat IH]; cbn [plain Regex.compile].
  - intros _. exists []. split; [reflexivity|]. intros s. destruct s; reflexivity.
  - intros H. apply andb_prop in H. destruct H as [H Hp].
    apply andb_prop in H. destruct H as [Hm Hd].
    apply negb_true_iff in Hm, Hd. rewrite Hm, Hd.
    destruct (IH Hp) as (re & -> & Hre).
    exists (Regex.Lit c :: re). split; [reflexivity|].
    intros [|d s]; [reflexivity|].
    cbn [Regex.match_here Regex.atom_match lower is_prefix]. now rewrite Hre.
Qed.

Lemma search_plain (pat : string) (re : list Regex.atom) :
  (forall s, Regex.match_here re s = is_prefix (lower pat) (lower s)) ->
  forall s, Regex.search re s = contains_ci pat s.
Proof.
  intros Hre. unfold contains_ci. induction s as [|c s IH].
  - cbn [Regex.search lower is_substring]. now rewrite Hre.
  - cbn [Regex.search lower is_substring]. now rewrite Hre, IH.
Qed.

Lemma str_contains_plain (pat : string) :
  plain pat = true ->
  str_contains pat full_df
  = Some (map (fun r => contains_ci pat (csv_name r)) full_df).
Proof.
  intros Hp. unfold str_contains.
  destruct (compile_plain pat Hp) as (re & -> & Hre).
  f_equal. apply map_ext. intros r. now apply search_plain.
Qed.

Lemma series_or_map (A : Type) (g h : A -> bool) (l : list A) :
  series_or (map g l) (map h l) = map (fun r => g r || h r) l.
Proof.
  unfold series_or. induction l as [|a l IH]; cbn; [reflexivity|].
  f_equal. exact IH.
Qed.

Lemma series_and_map (A : Type) (g h : A -> bool) (l : list A) :
  series_and (map g l) (map h l) = map (fun r => g r && h r) l.
Proof.
  unfold series_and. induction l as [|a l IH]; cbn; [reflexivity|].
  f_equal. exact IH.
Qed.

Lemma repeat_map (A : Type) (b : bool) (l : list A) :
  repeat b (length l) = map (fun _ => b) l.
Proof. induction l as [|a l IH]; cbn; congruence. Qed.

Lemma select_map (g : csv_record -> bool) (l : list csv_record) :
  select l (map g l) = filter g l.
Proof.
  unfold select. induction l as [|a l IH]; cbn; [reflexivity|].
  destruct (g a); cbn; congruence.
Qed.

Lemma keep_loop_plain (keeps : list string) (g : csv_record -> bool) :
  forallb plain keeps = true ->
  keep_loop keeps full_df (map g full_df)
  = Some (map (fun r => g r || existsb (fun k => contains_ci k (csv_name r)) keeps)
            full_df).
Proof.
  revert g. induction keeps as [|k keeps IH]; intros g Hp.
  - cbn. f_equal. apply map_ext. intros r. now rewrite orb_false_r.
  - cbn [forallb] in Hp. apply andb_prop in Hp. destruct Hp as [Hk Hp].
    cbn [keep_loop existsb]. rewrite (str_contains_plain k Hk), series_or_map.
    rewrite (IH _ Hp). f_equal. apply map_ext. intros r.
    now rewrite orb_assoc.
Qed.

Lemma filter_loop_plain (filters : list string) (g : csv_record -> bool) :
  forallb plain filters = true ->
  forallb plain keep_account_numbers = true ->
  filter_loop filters keep_account_numbers full_df (map g full_df)
  = Some (map (fun r => g r && survives filters keep_account_numbers r) full_df).
Proof.
  intros Hf Hk. revert g. induction filters as [|f filters IH]; intros g.
  - cbn. f_equal. apply map_ext. intros r. now rewrite andb_true_r.
  - cbn [forallb] in Hf. apply andb_prop in Hf. destruct Hf as [Hf Hfs].
    cbn [filter_loop]. rewrite (str_contains_plain f Hf), repeat_map.
    rewrite (keep_loop_plain _ _ Hk).
    unfold series_not. rewrite map_map, series_and_map, map_map, series_and_map.
    rewrite (IH Hfs). f_equal. apply map_ext. intros r.
    unfold survives. cbn [forallb orb]. now rewrite andb_assoc.
Qed.

(** On patterns without regular-expression operators the filter of the
    code is the filter of the specification: the survivors, in order. *)
Lemma noise_filter_plain :
  forallb plain filter_strings = true ->
  forallb plain keep_account_numbers = true ->
  noise_filter filter_strings keep_account_numbers full_df
  = Some (spec_noise_filter filter_strings keep_account_numbers full_df).
Proof.
  intros Hf Hk. unfold noise_filter, filter_condition.
  rewrite repeat_map, (filter_loop_plain _ _ Hf Hk). cbn [option_map].
  rewrite select_map. reflexivity.
Qed.

End NoiseFilterProperties.

(** C3. The code hands each pattern to a regular-expression search, so a
    pattern with a dot vetoes a name that does not contain it as a plain
    substring: with the exclude pattern [PAYPAL.COM] the record named
    [PAYPAL COM REFUND] is dropped by the code and retained by the filter
    the specification describes. *)
Theorem noise_filter_reads_pattern_as_regex :
  let r := mk_csv "2024-03-01" "PAYPAL COM REFUND" 25 nan in
  contains_ci "PAYPAL.COM" (csv_name r) = false
  /\ spec_noise_filter ["PAYPAL.COM"] ["4521"] [r] = [r]
  /\ noise_filter ["PAYPAL.COM"] ["4521"] [r] = Some [].
Proof. repeat split. Qed.

(** * Concrete runs

    The instances below take [float_decimal] for [float] and
    [strptime_ymd] for [strptime], i.e. [DATE_FORMAT = "%Y-%m-%d"]. *)

Local Open Scope float_scope.

(** A ledger row dated five weeks before the candidate, with a padded,
    differently cased name and a formatted amount, is a match. *)
Lemma ledger_match_ignores_dates_coffee :
  row_exists float_decimal "2024-01-05" "Coffee Shop" 4.5
    ([["2023-12-01"; "Groceries"; "$1,204.10"]]
     ++ ["2023-11-30"; "  COFFEE shop "; "$4.50"; ""; ""] :: [])
    [mk_csv "2024-01-05" "Coffee Shop" 4.5 nan] = true.
Proof.
  exact (ledger_match_ignores_dates float_decimal
           "2023-11-30" "  COFFEE shop " "$4.50" [""; ""]
           "2024-01-05" "Coffee Shop" 4.5 4.5
           [["2023-12-01"; "Groceries"; "$1,204.10"]] []
           [mk_csv "2024-01-05" "Coffee Shop" 4.5 nan]
           eq_refl eq_refl eq_refl).
Defined.

(** A record is not matched against itself, whatever else it shares with
    the candidate. *)
Lemma batch_rule_same_date_acme :
  row_exists float_decimal "2024-03-01" "ACME" 50 []
    [mk_csv "2024-03-01" "ACME" 50 nan] = false.
Proof.
  exact (proj2 (batch_rule_iff float_decimal "2024-03-01" "ACME" 50 [] [])
           (mk_csv "2024-03-01" "ACME" 50 nan) eq_refl).
Defined.

(** The scenario of the specification: the only candidate is already in
    the ledger, nothing is sent to the worksheet. *)
Lemma no_write_coffee_shop :
  let w' := snd (process_expenses float_decimal strptime_ymd 2
                   [["2024-01-05"; "Coffee Shop"; "$4.50"; ""; ""]]
                   [mk_csv "2024-01-05" "Coffee Shop" 4.5 nan] world0) in
  expense_sheet w' = expense_sheet world0 /\ income_sheet w' = income_sheet world0
  /\ range_after [[CStr "2024-01-05"; CStr "Coffee Shop"; CStr "$4.50"]]
       (expense_sheet w')
     = range_after [[CStr "2024-01-05"; CStr "Coffee Shop"; CStr "$4.50"]]
         (expense_sheet world0).
Proof.
  apply (proj1 (no_accepted_no_write float_decimal strptime_ymd 2
                  [["2024-01-05"; "Coffee Shop"; "$4.50"; ""; ""]] []
                  [mk_csv "2024-01-05" "Coffee Shop" 4.5 nan] world0
                  [[CStr "2024-01-05"; CStr "Coffee Shop"; CStr "$4.50"]])).
  intros r Hr. vm_compute in Hr. destruct Hr as [<-|[]]. reflexivity.
Defined.

(** C6, the claim as written fails: the ledger row has the candidate's
    name and an amount cell that does not parse, and [row_exists] leaves no
    record in the log; the whole expense block logs the queueing and the
    write-back only. *)
Lemma amount_skip_leaves_no_log :
  let sheet := [["2024-01-05"; "Coffee Shop"; "N/A"]] in
  let cand := mk_csv "2024-01-05" "Coffee Shop" 4.5 nan in
  normalize "Coffee Shop" = normalize (csv_name cand)
  /\ float_decimal (money_text "N/A") = None
  /\ ~ logs_something
         (row_exists_run float_decimal "2024-01-05" "Coffee Shop" 4.5 sheet [cand])
         world0
  /\ logger (snd (process_expenses float_decimal strptime_ymd 2 sheet [cand] world0))
     = [(INFO, Banner); (INFO, Processing Expense); (INFO, Banner);
        (INFO, Queued Expense "2024-01-05" "Coffee Shop" 4.5);
        (INFO, Merging Expense 1); (INFO, Updating Expense 2);
        (DEBUG, AppliedFormat 2 3); (INFO, Added Expense 1)].
Proof.
  repeat split. intros H. apply H. reflexivity.
Qed.

Lemma unparseable_amount_skipped_coffee :
  row_exists_run float_decimal "2024-01-05" "Coffee Shop" 4.5
    ([["2023-12-01"; "Groceries"; "$12.00"]]
     ++ ["2024-01-05"; "Coffee Shop"; "N/A"] :: [])
    [mk_csv "2024-01-05" "Coffee Shop" 4.5 nan] world0
  = (row_exists float_decimal "2024-01-05" "Coffee Shop" 4.5
       ([["2023-12-01"; "Groceries"; "$12.00"]] ++ [])
       [mk_csv "2024-01-05" "Coffee Shop" 4.5 nan], world0).
Proof.
  exact (proj2 (unparseable_amount_skipped_silently float_decimal
                  "2024-01-05" "Coffee Shop" 4.5
                  [["2023-12-01"; "Groceries"; "$12.00"]] []
                  ["2024-01-05"; "Coffee Shop"; "N/A"]
                  [mk_csv "2024-01-05" "Coffee Shop" 4.5 nan] world0)
           eq_refl).
Defined.

(** C7, the claim as written fails: the date [0001-01-01] parses, to
    [datetime.min] itself, so the row after it whose date does not parse
    ties with it and stays behind it. *)
Lemma sentinel_ties_with_minimum_date :
  ~ unparseable_first strptime_ymd
      (fst (merge_and_sort_data strptime_ymd
              [["0001-01-01"; "Opening balance"; "$0.00"];
               ["not-a-date"; "Misc"; "$3.00"]]
              [mk_row "2024-02-01" "Rent" (CNum 1200) "" "" None] world0)).
Proof.
  intros H.
  assert (Hlt : (1 < 0)%nat); [|lia].
  apply (H 1%nat 0%nat
           [CStr "not-a-date"; CStr "Misc"; CStr "$3.00"; CStr ""; CStr ""]
           [CStr "0001-01-01"; CStr "Opening balance"; CStr "$0.00"; CStr ""; CStr ""]);
    [reflexivity|reflexivity|reflexivity|discriminate].
Qed.

Lemma invalid_date_sentinel_rent :
  let out := fst (merge_and_sort_data strptime_ymd
                    [["2024-01-05"; "Coffee Shop"; "$4.50"];
                     ["not-a-date"; "Misc"; "$3.00"]]
                    [mk_row "2024-02-01" "Rent" (CNum 1200) "" "" None] world0) in
  nth_error out 0 = Some [CStr "not-a-date"; CStr "Misc"; CStr "$3.00"; CStr ""; CStr ""]
  /\ nth_error out 2 = Some [CStr "2024-02-01"; CStr "Rent"; CNum 1200; CStr ""; CStr ""]
  /\ (0 < 2)%nat.
Proof.
  intros out. split; [reflexivity|]. split; [reflexivity|].
  exact (proj2 (proj2 (proj2
           (invalid_date_sentinel strptime_ymd
              [["2024-01-05"; "Coffee Shop"; "$4.50"];
               ["not-a-date"; "Misc"; "$3.00"]]
              [mk_row "2024-02-01" "Rent" (CNum 1200) "" "" None] world0)))
           0%nat 2%nat
           [CStr "not-a-date"; CStr "Misc"; CStr "$3.00"; CStr ""; CStr ""]
           [CStr "2024-02-01"; CStr "Rent"; CNum 1200; CStr ""; CStr ""]
           eq_refl eq_refl eq_refl eq_refl).
Defined.

(** C8, the claim as written fails: a row read without its trailing empty
    cells comes back with five cells, so the merge is not the identity. *)
Lemma merge_nothing_pads_rows :
  let existing := [["2024-01-05"; "Coffee Shop"; "$4.50"]] in
  Sorted N.le
    (map (fun row => parsed_date strptime_ymd (strip (nth 0 row ""))) existing)
  /\ fst (merge_and_sort_data strptime_ymd existing [] world0)
     <> map (map CStr) existing.
Proof.
  split; [repeat constructor|discriminate].
Qed.

Lemma merge_nothing_on_sorted_two_rows :
  fst (merge_and_sort_data strptime_ymd
         [["2024-01-05"; "Coffee Shop"; "$4.50"]; [""; "subtotal"];
          [" 2024-01-09 "; "Bus"; "$2.75"; "Transit"; "monthly"; "x"]]
         [] world0)
  = [[CStr "2024-01-05"; CStr "Coffee Shop"; CStr "$4.50"; CStr ""; CStr ""];
     [CStr "2024-01-09"; CStr "Bus"; CStr "$2.75"; CStr "Transit"; CStr "monthly"]].
Proof.
  refine (proj1 (merge_nothing_on_sorted strptime_ymd
                   [["2024-01-05"; "Coffee Shop"; "$4.50"]; [""; "subtotal"];
                    [" 2024-01-09 "; "Bus"; "$2.75"; "Transit"; "monthly"; "x"]]
                   world0 _)).
  cbv. repeat constructor; discriminate.
Defined.

Lemma merged_rows_have_five_cells_rent :
  let row := [CStr "2024-01-05"; CStr "Coffee Shop"; CStr "$4.50"; CStr ""; CStr ""] in
  let out := fst (merge_and_sort_data strptime_ymd
                    [["2024-01-05"; "Coffee Shop"; "$4.50"]]
                    [mk_row "2024-02-01" "Rent" (CNum 1200) "" "" None] world0) in
  In row out /\ length row = 5%nat.
Proof.
  intros row out. split; [left; reflexivity|].
  refine (proj1 (merged_rows_have_five_cells float_decimal strptime_ymd
                   Expense csv_cost [mk_csv "2024-02-01" "Rent" 1200 nan]
                   [["2024-01-05"; "Coffee Shop"; "$4.50"]]
                   [mk_csv "2024-02-01" "Rent" 1200 nan]
                   [mk_row "2024-02-01" "Rent" (CNum 1200) "" "" None]
                   world0 world0 row) _).
  left. reflexivity.
Defined.

(** * Further properties of the code *)

(** ** Duplicate detector *)

Section DetectorMore.

Variable py_float : string -> option float.

Lemma sheet_scan_iff (name_str : string) (a : float)
    (sheet_data : list (list string)) :
  sheet_scan py_float (normalize name_str) a sheet_data = true
  <-> exists row, In row sheet_data /\ sheet_rule py_float name_str a row.
Proof.
  induction sheet_data as [|row rest IH].
  - cbn. split; [discriminate|]. intros (r & [] & _).
  - rewrite sheet_scan_cons. unfold sheet_rule in *.
    destruct (Nat.leb_spec 3 (length row)) as [Hlen|Hlen].
    + destruct (String.eqb_spec (normalize (nth 1 row "")) (normalize name_str))
        as [Hn|Hn]; cbn [negb].
      * destruct (py_float (money_text (nth 2 row ""))) as [x|] eqn:Hp.
        -- destruct (within_cent x a) eqn:Hw.
           ++ split; [|reflexivity]. intros _. exists row.
              split; [now left|]. repeat split; auto. exists x. auto.
           ++ rewrite IH. split.
              ** intros (r & Hr & H). exists r. split; [now right|exact H].
              ** intros (r & [<-|Hr] & H); [|exists r; auto].
                 destruct H as (_ & _ & y & Hy & Hy'). congruence.
        -- rewrite IH. split.
           ++ intros (r & Hr & H). exists r. split; [now right|exact H].
           ++ intros (r & [<-|Hr] & H); [|exists r; auto].
              destruct H as (_ & _ & y & Hy & _). congruence.
      * rewrite IH. split.
        -- intros (r & Hr & H). exists r. split; [now right|exact H].
        -- intros (r & [<-|Hr] & H); [|exists r; auto].
           destruct H as (_ & Hm & _). contradiction.
    + rewrite IH. split.
      * intros (r & Hr & H). exists r. split; [now right|exact H].
      * intros (r & [<-|Hr] & H); [|exists r; auto].
        destruct H as (Hl & _). lia.
Qed.

Lemma row_exists_orb (date_str name_str : string) (a : float)
    (sheet_data : list (list string)) (csv_data : list csv_record) :
  row_exists py_float date_str name_str a sheet_data csv_data
  = sheet_scan py_float (normalize name_str) a sheet_data
    || csv_scan date_str (normalize name_str) a csv_data.
Proof.
  unfold row_exists, normalize.
  destruct (sheet_scan py_float (lower (strip name_str)) a sheet_data); reflexivity.
Qed.

Lemma bool_eq_of_iff (a b : bool) : (a = true <-> b = true) -> a = b.
Proof.
  destruct a, b; intros [H1 H2]; try reflexivity.
  - symmetry. now apply H1.
  - now apply H2.
Qed.

(** X1. [row_exists] answers [true] for one of two reasons only: a
    worksheet row with at least three cells, the candidate's normalized name
    and an amount that parses within 0.01 of the candidate's, or a CSV
    record that satisfies the rule of the CSV loop.  Short rows, rows with
    another name and rows whose amount does not parse never make a match. *)
Theorem row_exists_iff
    (date_str name_str : string) (amount_val : float)
    (sheet_data : list (list string)) (csv_data : list csv_record) :
  row_exists py_float date_str name_str amount_val sheet_data csv_data = true
  <-> (exists row, In row sheet_data
                   /\ sheet_rule py_float name_str amount_val row)
      \/ (exists other, In other csv_data
                        /\ csv_rule date_str name_str amount_val other).
Proof.
  rewrite row_exists_orb, orb_true_iff, sheet_scan_iff, csv_scan_iff.
  reflexivity.
Qed.

(** X2. The answer of [row_exists] does not depend on the order of the
    worksheet rows nor on the order of the CSV records. *)
Theorem row_exists_order_independent
    (date_str name_str : string) (amount_val : float)
    (sheet_data sheet_data' : list (list string))
    (csv_data csv_data' : list csv_record) :
  Permutation sheet_data sheet_data' ->
  Permutation csv_data csv_data' ->
  row_exists py_float date_str name_str amount_val sheet_data csv_data
  = row_exists py_float date_str name_str amount_val sheet_data' csv_data'.
Proof.
  intros Hs Hc. rewrite !row_exists_orb. f_equal; apply bool_eq_of_iff.
  - rewrite !sheet_scan_iff. split; intros (r & Hr & H); exists r;
      (split; [|exact H]).
    + eapply Permutation_in; eassumption.
    + eapply Permutation_in; [apply Permutation_sym|]; eassumption.
  - rewrite !csv_scan_iff. split; intros (r & Hr & H); exists r;
      (split; [|exact H]).
    + eapply Permutation_in; eassumption.
    + eapply Permutation_in; [apply Permutation_sym|]; eassumption.
Qed.

End DetectorMore.

(** ** Queueing and write-back *)

Section OrchestratorMore.

Variable py_float : string -> option float.
Variable strptime : string -> option datetime.
Variable DATA_START_ROW : Z.

Lemma add_log_extend (w : world) (entries : list (log_level * log_msg))
    (l : ledger) :
  add_log w entries = extend w entries l [].
Proof. destruct l; unfold add_log, extend; rewrite app_nil_r; reflexivity. Qed.

Lemma extend_extend (w : world) (e1 e2 : list (log_level * log_msg))
    (l : ledger) (c1 c2 : list sheet_call) :
  extend (extend w e1 l c1) e2 l c2 = extend w (e1 ++ e2) l (c1 ++ c2).
Proof. destruct l; unfold extend; cbn; rewrite !app_assoc; reflexivity. Qed.

Lemma merged_length (data_rows : list (list string)) (new_rows : list row_dict)
    (w : world) :
  length (fst (merge_and_sort_data strptime data_rows new_rows w))
  = (length (filter dated_row data_rows) + length new_rows)%nat.
Proof.
  rewrite merge_run. cbn [fst].
  rewrite (Permutation_length (merged_perm strptime _)).
  rewrite map_app, existing_images, length_app, !length_map. reflexivity.
Qed.

Lemma merged_any_world (data_rows : list (list string)) (new_rows : list row_dict)
    (w w' : world) :
  fst (merge_and_sort_data strptime data_rows new_rows w)
  = fst (merge_and_sort_data strptime data_rows new_rows w').
Proof. rewrite !merge_run. reflexivity. Qed.

(** The block guarded by [if new_rows:], when there are new rows. *)
Lemma write_back_run (l : ledger) (data_rows : list (list string))
    (new_rows : list row_dict) :
  new_rows <> [] ->
  exists entries, forall w,
    write_back strptime DATA_START_ROW l data_rows new_rows w
    = (tt,
       extend w entries l
         [batch_clear;
          update (fst (merge_and_sort_data strptime data_rows new_rows world0));
          format DATA_START_ROW
            (DATA_START_ROW
             + Z.of_nat (length (fst (merge_and_sort_data strptime data_rows
                                        new_rows world0))) - 1)]).
Proof.
  intros Hnew. destruct new_rows as [|x xs]; [contradiction|].
  pose proof (merged_length data_rows (x :: xs) world0) as Hlen.
  rewrite merge_run in *. cbn [fst] in *.
  destruct (map to_list
              (sort_rows (map (stamp strptime)
                            (add_existing data_rows ++ x :: xs)))) as [|m ms] eqn:E.
  - cbn [length] in Hlen. lia.
  - eexists. intros w.
    unfold write_back, bind, log, call, ret. cbv beta iota zeta.
    rewrite merge_run, E. cbv beta iota zeta.
    destruct l; unfold extend, add_log;
      cbn [logger expense_sheet income_sheet];
      rewrite <- ?app_assoc; cbn [app]; reflexivity.
Qed.

(** Either block as a function of its inputs alone: it appends log
    records, and calls on its own worksheet. *)
Lemma process_ledger_run (l : ledger) (amount_of : csv_record -> float)
    (view : list csv_record) (data_rows : list (list string))
    (full_df : list csv_record) :
  exists entries cs,
    forall w,
      process_ledger py_float strptime DATA_START_ROW l amount_of view
        data_rows full_df w = (tt, extend w entries l cs).
Proof.
  destruct (map (new_dict amount_of)
              (filter (accepted py_float amount_of data_rows full_df) view))
    as [|x xs] eqn:E.
  - eexists. exists []. intros w. unfold process_ledger.
    unfold bind at 1. rewrite log_run.
    unfold bind at 1. rewrite log_run.
    unfold bind at 1. rewrite log_run.
    unfold bind at 1. rewrite queue_rows_run, E.
    cbn [write_back]. rewrite log_run, !add_log_app.
    rewrite (add_log_extend _ _ l). reflexivity.
  - assert (Hne : x :: xs <> []) by discriminate.
    destruct (write_back_run l data_rows (x :: xs) Hne) as (ent & Hwb).
    eexists. eexists. intros w. unfold process_ledger.
    unfold bind at 1. rewrite log_run.
    unfold bind at 1. rewrite log_run.
    unfold bind at 1. rewrite log_run.
    unfold bind at 1. rewrite queue_rows_run, E, !add_log_app.
    rewrite Hwb, (add_log_extend _ _ l), extend_extend. reflexivity.
Qed.

Lemma new_dict_inj (amount_of : csv_record -> float) (r r' : csv_record) :
  new_dict amount_of r' = new_dict amount_of r ->
  csv_date r' = csv_date r /\ csv_name r' = csv_name r
  /\ amount_of r' = amount_of r.
Proof. unfold new_dict. intros H. injection H. auto. Qed.

(** A record that some record of the frame flags is not queued. *)
Lemma flagged_not_queued (l : ledger) (amount_of : csv_record -> float)
    (view : list csv_record) (data_rows : list (list string))
    (full_df : list csv_record) (w : world) (r : csv_record) :
  (exists other, In other full_df
                 /\ csv_rule (csv_date r) (csv_name r) (amount_of r) other) ->
  ~ In (new_dict amount_of r)
      (fst (queue_rows py_float l amount_of view data_rows full_df w)).
Proof.
  intros Hflag Hin. rewrite queue_rows_run in Hin. cbn [fst] in Hin.
  apply in_map_iff in Hin. destruct Hin as (r' & Heq & Hr').
  apply filter_In in Hr'. destruct Hr' as [_ Hacc].
  apply new_dict_inj in Heq. destruct Heq as (Hd & Hn & Ha).
  unfold accepted in Hacc. rewrite Hd, Hn, Ha, row_exists_orb in Hacc.
  apply (csv_scan_iff (csv_date r) (csv_name r) (amount_of r)) in Hflag.
  rewrite Hflag, orb_true_r in Hacc. discriminate.
Qed.

(** X3. Two records of the frame with the same normalized name, different
    dates and positive costs within 0.01 of each other flag each other:
    neither is queued for the expense worksheet, whatever the worksheet
    holds. *)
Theorem records_flag_each_other
    (expense_data_rows : list (list string)) (full_df : list csv_record)
    (r1 r2 : csv_record) (w : world) :
  In r1 full_df -> In r2 full_df ->
  normalize (csv_name r1) = normalize (csv_name r2) ->
  csv_date r1 <> csv_date r2 ->
  notna_positive (csv_cost r1) = true ->
  notna_positive (csv_cost r2) = true ->
  within_cent (csv_cost r1) (csv_cost r2) = true ->
  within_cent (csv_cost r2) (csv_cost r1) = true ->
  ~ In (new_dict csv_cost r1)
      (fst (new_expense_rows py_float expense_data_rows full_df w))
  /\ ~ In (new_dict csv_cost r2)
         (fst (new_expense_rows py_float expense_data_rows full_df w)).
Proof.
  intros H1 H2 Hn Hd Hp1 Hp2 Hw12 Hw21. unfold new_expense_rows.
  split; apply flagged_not_queued.
  - exists r2. split; [exact H2|]. repeat split; [now symmetry| |congruence].
    exists (csv_cost r2). unfold csv_amount. rewrite Hp2. auto.
  - exists r1. split; [exact H1|]. repeat split; [exact Hn| |exact Hd].
    exists (csv_cost r1). unfold csv_amount. rewrite Hp1. auto.
Qed.

Lemma filter_repeat (A : Type) (p : A -> bool) (a : A) (k : nat) :
  p a = true -> filter p (repeat a k) = repeat a k.
Proof.
  intros Hp. induction k as [|k IH]; cbn [repeat filter]; [reflexivity|].
  rewrite Hp, IH. reflexivity.
Qed.

Lemma csv_scan_same_date (name_str : string) (a : float) (r : csv_record)
    (k : nat) :
  csv_scan (csv_date r) (normalize name_str) a (repeat r k) = false.
Proof.
  destruct (csv_scan (csv_date r) (normalize name_str) a (repeat r k)) eqn:E;
    [|reflexivity].
  apply csv_scan_iff in E. destruct E as (o & Ho & _ & _ & Hne).
  apply repeat_spec in Ho. subst o. contradiction.
Qed.

Lemma copies_queued (l : ledger) (amount_of : csv_record -> float)
    (data_rows : list (list string)) (r : csv_record) (k : nat) (w : world) :
  row_exists py_float (csv_date r) (csv_name r) (amount_of r) data_rows [] = false ->
  fst (queue_rows py_float l amount_of (repeat r k) data_rows (repeat r k) w)
  = repeat (new_dict amount_of r) k.
Proof.
  intros Hledger. rewrite queue_rows_run. cbn [fst].
  rewrite filter_repeat, map_repeat; [reflexivity|].
  unfold accepted. rewrite row_exists_orb in *.
  apply orb_false_elim in Hledger. destruct Hledger as [Hs _].
  rewrite Hs, csv_scan_same_date. reflexivity.
Qed.

(** X4. A record the worksheet does not hold, present any number of times
    in a frame of copies of it (same date), is queued every time: the CSV
    loop only looks at records of another date.  This holds for the expense
    block on a positive cost and for the income block on a positive
    payment. *)
Theorem same_day_copies_all_queued
    (data_rows : list (list string)) (r : csv_record) (k : nat) (w : world) :
  (notna_positive (csv_cost r) = true ->
   row_exists py_float (csv_date r) (csv_name r) (csv_cost r) data_rows [] = false ->
   fst (new_expense_rows py_float data_rows (repeat r k) w)
   = repeat (new_dict csv_cost r) k)
  /\ (notna_positive (csv_payment r) = true ->
      row_exists py_float (csv_date r) (csv_name r) (csv_payment r) data_rows []
      = false ->
      fst (new_income_rows py_float data_rows (repeat r k) w)
      = repeat (new_dict csv_payment r) k).
Proof.
  split; intros Hpos Hledger.
  - unfold new_expense_rows, debts. rewrite filter_repeat by exact Hpos.
    now apply copies_queued.
  - unfold new_income_rows, payments. rewrite filter_repeat by exact Hpos.
    now apply copies_queued.
Qed.

(** X5. Each block only appends: the log and the call history of its own
    worksheet keep what they held, and the other worksheet receives no
    call, whatever the inputs. *)
Theorem blocks_only_append
    (expense_data_rows income_data_rows : list (list string))
    (full_df : list csv_record) (w : world) :
  (let after := snd (process_expenses py_float strptime DATA_START_ROW
                       expense_data_rows full_df w) in
   income_sheet after = income_sheet w
   /\ (exists cs, expense_sheet after = expense_sheet w ++ cs)
   /\ (exists entries, logger after = logger w ++ entries))
  /\ (let after := snd (process_income py_float strptime DATA_START_ROW
                          income_data_rows full_df w) in
      expense_sheet after = expense_sheet w
      /\ (exists cs, income_sheet after = income_sheet w ++ cs)
      /\ (exists entries, logger after = logger w ++ entries)).
Proof.
  split; intros after; subst after.
  - unfold process_expenses.
    destruct (process_ledger_run Expense csv_cost (debts full_df)
                expense_data_rows full_df) as (entries & cs & H).
    rewrite H. cbn. eauto.
  - unfold process_income.
    destruct (process_ledger_run Income csv_payment (payments full_df)
                income_data_rows full_df) as (entries & cs & H).
    rewrite H. cbn. eauto.
Qed.

(** X6. When there is at least one new row, the write-back sends exactly
    three calls to its worksheet: [batch_clear], [update] with the merged
    rows, and [format] on as many rows of the amount column as were
    written, starting at [DATA_START_ROW].  The merged rows are the dated
    existing rows plus the new rows in number, hence never empty, and they
    are the whole content of the data range afterwards. *)
Theorem write_back_calls
    (l : ledger) (data_rows : list (list string)) (new_rows : list row_dict)
    (w w' : world) (content : list (list cell)) :
  new_rows <> [] ->
  let merged := fst (merge_and_sort_data strptime data_rows new_rows w') in
  let after := snd (write_back strptime DATA_START_ROW l data_rows new_rows w) in
  sheet_of l after
  = sheet_of l w
    ++ [batch_clear; update merged;
        format DATA_START_ROW (DATA_START_ROW + Z.of_nat (length merged) - 1)]
  /\ sheet_of (other_ledger l) after = sheet_of (other_ledger l) w
  /\ length merged = (length (filter dated_row data_rows) + length new_rows)%nat
  /\ merged <> []
  /\ range_after content (sheet_of l after) = merged.
Proof.
  intros Hne merged after. subst merged after.
  destruct (write_back_run l data_rows new_rows Hne) as (entries & H).
  rewrite H, (merged_any_world data_rows new_rows w' world0). cbn [snd].
  pose proof (merged_length data_rows new_rows world0) as Hlen.
  assert (Hnonempty : fst (merge_and_sort_data strptime data_rows new_rows world0)
                      <> []).
  { intros E. rewrite E in Hlen. destruct new_rows; [contradiction|].
    cbn [length] in Hlen. lia. }
  repeat split; try assumption.
  - destruct l; reflexivity.
  - destruct l; reflexivity.
  - unfold range_after. destruct l; cbn [sheet_of extend expense_sheet income_sheet];
      rewrite fold_left_app; reflexivity.
Qed.

(** X7. Run one after the other, the two blocks leave each worksheet with
    the calls its own block sends when run alone, and the log of the
    expense block followed by the log of the income block: what the income
    block does never depends on what the expense block wrote. *)
Theorem blocks_are_independent
    (expense_data_rows income_data_rows : list (list string))
    (full_df : list csv_record) (w : world) :
  let after := snd (process_both py_float strptime DATA_START_ROW
                      expense_data_rows income_data_rows full_df w) in
  expense_sheet after
  = expense_sheet (snd (process_expenses py_float strptime DATA_START_ROW
                          expense_data_rows full_df w))
  /\ income_sheet after
     = income_sheet (snd (process_income py_float strptime DATA_START_ROW
                            income_data_rows full_df w))
  /\ logger after
     = logger (snd (process_expenses py_float strptime DATA_START_ROW
                      expense_data_rows full_df w))
       ++ logger (snd (process_income py_float strptime DATA_START_ROW
                         income_data_rows full_df world0)).
Proof.
  intros after. subst after. unfold process_both, bind, process_expenses,
    process_income.
  destruct (process_ledger_run Expense csv_cost (debts full_df)
              expense_data_rows full_df) as (e1 & c1 & H1).
  destruct (process_ledger_run Income csv_payment (payments full_df)
              income_data_rows full_df) as (e2 & c2 & H2).
  rewrite !H1, !H2. cbn. auto.
Qed.

End OrchestratorMore.

(** ** Noise filter and its configuration *)

Section NoiseFilterMore.

Lemma str_contains_compiled (full_df : list csv_record) (pat : string) :
  compiles pat = true ->
  str_contains pat full_df
  = Some (map (fun r => re_contains pat (csv_name r)) full_df).
Proof.
  unfold compiles, str_contains, re_contains.
  destruct (Regex.compile pat); [reflexivity|discriminate].
Qed.

Lemma keep_loop_compiled (full_df : list csv_record) (keeps : list string)
    (g : csv_record -> bool) :
  forallb compiles keeps = true ->
  keep_loop keeps full_df (map g full_df)
  = Some (map (fun r => g r || keep_match keeps r) full_df).
Proof.
  revert g. induction keeps as [|k keeps IH]; intros g Hc.
  - cbn. f_equal. apply map_ext. intros r. unfold keep_match. cbn.
    now rewrite orb_false_r.
  - cbn [forallb] in Hc. apply andb_prop in Hc. destruct Hc as [Hk Hc].
    cbn [keep_loop]. rewrite (str_contains_compiled full_df k Hk), series_or_map.
    rewrite (IH _ Hc). f_equal. apply map_ext. intros r.
    unfold keep_match. cbn [existsb]. now rewrite orb_assoc.
Qed.

Lemma filter_loop_compiled (full_df : list csv_record)
    (filters keeps : list string) (g : csv_record -> bool) :
  forallb compiles filters = true ->
  forallb compiles keeps = true ->
  filter_loop filters keeps full_df (map g full_df)
  = Some (map (fun r => g r && re_survives filters keeps r) full_df).
Proof.
  intros Hf Hk. revert g. induction filters as [|f filters IH]; intros g.
  - cbn. f_equal. apply map_ext. intros r. now rewrite andb_true_r.
  - cbn [forallb] in Hf. apply andb_prop in Hf. destruct Hf as [Hf Hfs].
    cbn [filter_loop]. rewrite (str_contains_compiled full_df f Hf), repeat_map.
    rewrite (keep_loop_compiled full_df _ _ Hk).
    unfold series_not. rewrite map_map, series_and_map, map_map, series_and_map.
    rewrite (IH Hfs). f_equal. apply map_ext. intros r.
    unfold re_survives. cbn [forallb orb]. now rewrite andb_assoc.
Qed.

Lemma noise_filter_compiled (full_df : list csv_record)
    (filters keeps : list string) :
  forallb compiles filters = true ->
  forallb compiles keeps = true ->
  noise_filter filters keeps full_df
  = Some (filter (re_survives filters keeps) full_df).
Proof.
  intros Hf Hk. unfold noise_filter, filter_condition.
  rewrite repeat_map, (filter_loop_compiled full_df _ _ _ Hf Hk). cbn [option_map].
  rewrite select_map. reflexivity.
Qed.


Lemma filter_all (A : Type) (p : A -> bool) (l : list A) :
  (forall a, In a l -> p a = true) -> filter p l = l.
Proof.
  intros H. induction l as [|a l IH]; cbn [filter]; [reflexivity|].
  rewrite (H a (or_introl eq_refl)), IH; [reflexivity|].
  intros b Hb. apply H. now right.
Qed.

(** X8. When every pattern is in the modelled fragment of regular
    expressions, the filter keeps, in their order, exactly the records for
    which no exclude pattern matches the name unless a keep pattern matches
    it too; the result is a sub-list of the frame and filtering it again
    changes nothing. *)
Theorem noise_filter_keeps_survivors
    (filter_strings keep_account_numbers : list string)
    (full_df : list csv_record) :
  forallb compiles filter_strings = true ->
  forallb compiles keep_account_numbers = true ->
  noise_filter filter_strings keep_account_numbers full_df
  = Some (filter (re_survives filter_strings keep_account_numbers) full_df)
  /\ noise_filter filter_strings keep_account_numbers
       (filter (re_survives filter_strings keep_account_numbers) full_df)
     = Some (filter (re_survives filter_strings keep_account_numbers) full_df).
Proof.
  intros Hf Hk. split.
  - now apply noise_filter_compiled.
  - rewrite (noise_filter_compiled _ _ _ Hf Hk). f_equal.
    apply filter_all. intros r Hr. apply filter_In in Hr. tauto.
Qed.

End NoiseFilterMore.




Lemma split_comma_nonempty (value : string) : split_comma value <> [].
Proof.
  destruct value as [|c rest]; cbn [split_comma]; [discriminate|].
  destruct (Ascii.eqb c ","); [discriminate|].
  destruct (split_comma rest); discriminate.
Qed.

Lemma split_comma_trailing (value : string) :
  split_comma (value ++ ",")%string = split_comma value ++ [""].
Proof.
  induction value as [|c rest IH]; [reflexivity|].
  cbn [append split_comma]. rewrite IH.
  destruct (Ascii.eqb c ","); [reflexivity|].
  destruct (split_comma rest) as [|first others] eqn:E; [|reflexivity].
  now apply split_comma_nonempty in E.
Qed.

(** X11. A configuration value always gives at least one pattern; the
    empty value gives the single empty pattern, and a value that ends in a
    comma gives the patterns before the comma followed by an empty
    pattern. *)
Theorem config_list_empty_entries (value : string) :
  config_list value <> []
  /\ config_list "" = [""]
  /\ config_list (value ++ ",")%string = config_list value ++ [""]
  /\ In "" (config_list (value ++ ",")%string).
Proof.
  assert (Htrail : config_list (value ++ ",")%string = config_list value ++ [""]).
  { unfold config_list. rewrite split_comma_trailing, map_app. reflexivity. }
  repeat split.
  - unfold config_list. intros E. apply map_eq_nil in E.
    now apply split_comma_nonempty in E.
  - exact Htrail.
  - rewrite Htrail. apply in_or_app. right. now left.
Qed.

(** ** Rows written by an earlier run *)

Lemma rstrip_idem (s : string) : rstrip (rstrip s) = rstrip s.
Proof.
  induction s as [|c s IH]; [reflexivity|].
  cbn [rstrip]. destruct (rstrip s) as [|d r] eqn:E.
  - destruct (isspace c) eqn:Hc; [reflexivity|].
    cbn [rstrip]. rewrite Hc. reflexivity.
  - cbn [rstrip]. cbn [rstrip] in IH. rewrite IH. reflexivity.
Qed.

Lemma lstrip_idem (s : string) : lstrip (lstrip s) = lstrip s.
Proof.
  induction s as [|c s IH]; [reflexivity|].
  cbn [lstrip]. destruct (isspace c) eqn:Hc; [exact IH|].
  cbn [lstrip]. rewrite Hc. reflexivity.
Qed.

Lemma rstrip_lstrip (t : string) :
  rstrip t = t -> rstrip (lstrip t) = lstrip t.
Proof.
  induction t as [|c t IH]; [reflexivity|].
  intros H. cbn [lstrip]. destruct (isspace c) eqn:Hc; [|exact H].
  apply IH. cbn [rstrip] in H. destruct (rstrip t) as [|d r].
  - rewrite Hc in H. discriminate.
  - now injection H.
Qed.

Lemma strip_idem (s : string) : strip (strip s) = strip s.
Proof.
  unfold strip.
  rewrite (rstrip_lstrip (rstrip s) (rstrip_idem s)). apply lstrip_idem.
Qed.

Lemma filter_filter_implied (A : Type) (p q : A -> bool) (l : list A) :
  (forall a, q a = true -> p a = true) ->
  filter q (filter p l) = filter q l.
Proof.
  intros H. induction l as [|a l IH]; [reflexivity|].
  cbn [filter]. destruct (p a) eqn:Hp; cbn [filter].
  - now rewrite IH.
  - destruct (q a) eqn:Hq; [|exact IH].
    apply H in Hq. congruence.
Qed.

Lemma truthy_strip (s : string) : truthy (strip s) = true -> truthy s = true.
Proof. destruct s; [discriminate|reflexivity]. Qed.

Lemma existing_image_texts (row : list string) :
  existing_image (existing_texts row) = existing_image row.
Proof.
  unfold existing_image, existing_texts. cbn [nth]. now rewrite !strip_idem.
Qed.

(** X12. Fed the texts it wrote for the existing rows, the merge writes
    the same five cells for each of them again - stripping is idempotent -
    except that a row whose date cell held only whitespace, written with an
    empty date, is now dropped. *)
Theorem rewritten_rows_are_stable
    (strptime : string -> option datetime)
    (existing_data : list (list string)) (new_rows : list row_dict) (w : world) :
  Permutation
    (fst (merge_and_sort_data strptime
            (map existing_texts (filter dated_row existing_data)) new_rows w))
    (map existing_image
       (filter (fun row => truthy (strip (nth 0 row ""))) existing_data)
     ++ map to_list new_rows).
Proof.
  rewrite merge_run. cbn [fst]. rewrite merged_perm, map_app, existing_images.
  rewrite filter_map_comm, map_map.
  rewrite (map_ext _ existing_image existing_image_texts).
  rewrite (filter_filter_implied _ dated_row
             (fun row => dated_row (existing_texts row))).
  - reflexivity.
  - intros row H. now apply truthy_strip.
Qed.

(** X13. The queueing loop returns, in the order of the view, one row for
    each record [row_exists] does not report - a decision never depends on
    the rows queued before - writes one log record per record of the view,
    and sends nothing to the worksheets. *)
Theorem queue_rows_in_view_order
    (py_float : string -> option float) (l : ledger)
    (amount_of : csv_record -> float) (view : list csv_record)
    (data_rows : list (list string)) (full_df : list csv_record) (w : world) :
  let run := queue_rows py_float l amount_of view data_rows full_df w in
  fst run
  = map (new_dict amount_of)
      (filter (fun r => negb (row_exists py_float (csv_date r) (csv_name r)
                                (amount_of r) data_rows full_df)) view)
  /\ logger (snd run)
     = logger w ++ map (queue_entry py_float l amount_of data_rows full_df) view
  /\ expense_sheet (snd run) = expense_sheet w
  /\ income_sheet (snd run) = income_sheet w.
Proof.
  intros run. subst run. rewrite queue_rows_run. cbn. auto.
Qed.

(** X14. After a write-back with at least one new row the data range is
    in ascending order of parsed date, whatever it held before and in
    whatever order the existing rows were read. *)
Theorem data_range_sorted_after_write_back
    (strptime : string -> option datetime) (DATA_START_ROW : Z)
    (l : ledger) (data_rows : list (list string)) (new_rows : list row_dict)
    (w : world) (content : list (list cell)) :
  new_rows <> [] ->
  StronglySorted (date_le strptime)
    (range_after content
       (sheet_of l (snd (write_back strptime DATA_START_ROW l data_rows
                           new_rows w)))).
Proof.
  intros Hne.
  destruct (write_back_run strptime DATA_START_ROW l data_rows new_rows Hne)
    as (entries & H).
  rewrite H. cbn [snd].
  assert (E : forall m c,
             range_after content (sheet_of l (extend w entries l [batch_clear; update m; c]))
             = apply_call m c).
  { intros m c. unfold range_after.
    destruct l; cbn [sheet_of extend expense_sheet income_sheet];
      rewrite fold_left_app; reflexivity. }
  rewrite E. cbn [apply_call]. rewrite merge_run. cbn [fst].
  apply merged_sorted.
Qed.

(** ** Concrete runs of the further properties *)

Lemma row_exists_order_independent_coffee :
  row_exists float_decimal "2024-01-05" "Coffee Shop" 4.5
    [["2023-12-01"; "Groceries"; "$12.00"]; ["2023-11-30"; "coffee shop"; "4.5"]]
    [mk_csv "2024-01-05" "Coffee Shop" 4.5 nan; mk_csv "2024-01-06" "Bus" 2.75 nan]
  = row_exists float_decimal "2024-01-05" "Coffee Shop" 4.5
      [["2023-11-30"; "coffee shop"; "4.5"]; ["2023-12-01"; "Groceries"; "$12.00"]]
      [mk_csv "2024-01-06" "Bus" 2.75 nan; mk_csv "2024-01-05" "Coffee Shop" 4.5 nan].
Proof.
  apply (row_exists_order_independent float_decimal); apply perm_swap.
Defined.

(** A monthly charge present twice in one import never reaches the
    ledger. *)
Lemma records_flag_each_other_rent :
  let jan := mk_csv "2024-01-01" "Rent" 1200 nan in
  let feb := mk_csv "2024-02-01" "RENT " 1200 nan in
  ~ In (new_dict csv_cost jan)
      (fst (new_expense_rows float_decimal [] [jan; feb] world0))
  /\ ~ In (new_dict csv_cost feb)
         (fst (new_expense_rows float_decimal [] [jan; feb] world0)).
Proof.
  intros jan feb.
  apply (records_flag_each_other float_decimal [] [jan; feb] jan feb world0);
    try reflexivity.
  - now left.
  - right. now left.
  - discriminate.
Defined.

Lemma same_day_copies_all_queued_acme :
  fst (new_expense_rows float_decimal [["2024-01-05"; "Coffee Shop"; "$4.50"]]
         (repeat (mk_csv "2024-03-01" "ACME" 50 nan) 2) world0)
  = repeat (new_dict csv_cost (mk_csv "2024-03-01" "ACME" 50 nan)) 2.
Proof.
  apply (proj1 (same_day_copies_all_queued float_decimal
                  [["2024-01-05"; "Coffee Shop"; "$4.50"]]
                  (mk_csv "2024-03-01" "ACME" 50 nan) 2 world0));
    reflexivity.
Defined.

Lemma write_back_calls_rent :
  let new_rows := [mk_row "2024-02-01" "Rent" (CNum 1200) "" "" None] in
  let data_rows := [["2024-01-05"; "Coffee Shop"; "$4.50"]; [""; "subtotal"]] in
  let merged := fst (merge_and_sort_data strptime_ymd data_rows new_rows world0) in
  let after := snd (write_back strptime_ymd 2 Expense data_rows new_rows world0) in
  sheet_of Expense after
  = sheet_of Expense world0
    ++ [batch_clear; update merged; format 2 (2 + Z.of_nat (length merged) - 1)]
  /\ sheet_of (other_ledger Expense) after = sheet_of (other_ledger Expense) world0
  /\ length merged = (length (filter dated_row data_rows) + length new_rows)%nat
  /\ merged <> []
  /\ range_after [[CStr "stale"]] (sheet_of Expense after) = merged.
Proof.
  apply (write_back_calls strptime_ymd 2 Expense
           [["2024-01-05"; "Coffee Shop"; "$4.50"]; [""; "subtotal"]]
           [mk_row "2024-02-01" "Rent" (CNum 1200) "" "" None]
           world0 world0 [[CStr "stale"]]).
  discriminate.
Defined.

Lemma noise_filter_keeps_survivors_transfer :
  noise_filter ["E-TRANSFER"; "PAYMENT"] ["4521"]
    [mk_csv "2024-03-01" "E-Transfer to 4521" 40 nan;
     mk_csv "2024-03-02" "Payment - thank you" nan 300;
     mk_csv "2024-03-03" "Cafe" 5 nan]
  = Some (filter (re_survives ["E-TRANSFER"; "PAYMENT"] ["4521"])
            [mk_csv "2024-03-01" "E-Transfer to 4521" 40 nan;
             mk_csv "2024-03-02" "Payment - thank you" nan 300;
             mk_csv "2024-03-03" "Cafe" 5 nan]).
Proof.
  apply (proj1 (noise_filter_keeps_survivors ["E-TRANSFER"; "PAYMENT"] ["4521"]
                  [mk_csv "2024-03-01" "E-Transfer to 4521" 40 nan;
                   mk_csv "2024-03-02" "Payment - thank you" nan 300;
                   mk_csv "2024-03-03" "Cafe" 5 nan] eq_refl eq_refl)).
Defined.



Lemma data_range_sorted_after_write_back_rent :
  StronglySorted (date_le strptime_ymd)
    (range_after [[CStr "2024-09-09"]; [CStr "2024-01-01"]]
       (sheet_of Income
          (snd (write_back strptime_ymd 2 Income
                  [["2024-03-05"; "Refund"; "$4.50"]; ["2024-01-15"; "Salary"; "$900.00"]]
                  [mk_row "2024-02-01" "Interest" (CNum 1.25) "" "" None] world0)))).
Proof.
  apply (data_range_sorted_after_write_back strptime_ymd 2 Income
           [["2024-03-05"; "Refund"; "$4.50"]; ["2024-01-15"; "Salary"; "$900.00"]]
           [mk_row "2024-02-01" "Interest" (CNum 1.25) "" "" None] world0
           [[CStr "2024-09-09"]; [CStr "2024-01-01"]]).
  discriminate.
Defined.
